(** * SmartMarkdown: pandoc export and headline folding

    A shallow embedding of the two Sublime Text command handlers of the
    repository, [pandoc_render.py] and [smart_folding.py].

    The editor owns three persistent entities: the buffer text, the selection
    regions and the list of folded regions.  They are gathered in the record
    [View].  The plugin code reads them and asks the editor to change them;
    every such request, and every request to the operating system (temporary
    files, subprocesses, the browser), is recorded in a log of [call]s, so that
    statements can speak both about the resulting view and about what was
    asked, in which order.

    What the editor does when asked ([Host]) and what the operating system
    answers ([System]) are not part of the repository: they are parameters.
    The same holds for the module [headline], which [smart_folding.py] imports
    but which is not among the sources ([Headline]). *)

From Stdlib Require Import ZArith List String Ascii Bool Lia DecimalString.
Import ListNotations.

Local Open Scope string_scope.
Local Open Scope Z_scope.

(** ** Regions, as [sublime.Region] *)

Module Region.

Record t : Set := mk { a : Z; b : Z }.

Definition begin (r : t) : Z := Z.min (a r) (b r).
Definition end_ (r : t) : Z := Z.max (a r) (b r).
Definition size (r : t) : Z := Z.abs (b r - a r).

(** [Region.contains(region)] *)
Definition contains (r x : t) : bool :=
  (begin r <=? begin x) && (end_ x <=? end_ r).

(** [Region.intersects(region)]: the two regions share a character. *)
Definition intersects (r x : t) : bool :=
  (begin r <? end_ x) && (begin x <? end_ r).

Definition eqb (r x : t) : bool := (a r =? a x) && (b r =? b x).

End Region.

(** ** The view: the entities the editor owns *)

Record View : Type := mkView {
  text : string;
  sel : list Region.t;
  folded_regions : list Region.t
}.

(** [view.size()] *)
Definition size (v : View) : Z := Z.of_nat (String.length (text v)).

(** [view.substr(region)] *)
Definition substr (v : View) (r : Region.t) : string :=
  String.substring (Z.to_nat (Region.begin r))
                   (Z.to_nat (Region.end_ r - Region.begin r)) (text v).

(** The editor's side of the plugin API.  [insert], [fold], [unfold] and the
    two operations of the selection object returned by [sel()] are the
    mutators the sources use; [rowcol] and [text_point] convert between
    offsets and lines; [encoding] and [file_name] are attributes of the
    buffer's file. *)
Record Host : Type := mkHost {
  insert : View -> Z -> string -> View;
  fold : View -> Region.t -> View;
  unfold : View -> Region.t -> View;
  sel_clear : View -> View;
  sel_add : View -> Region.t -> View;
  rowcol : View -> Z -> Z * Z;
  text_point : View -> Z -> Z -> Z;
  encoding : string;
  file_name : option string
}.

(** The operating system and the Python runtime, as far as the export command
    sees them.  [temp_name k suffix] is the name [tempfile] gives to the
    [k]-th temporary file of the run; [splitext_root p] is
    [os.path.splitext(p)[0]]; [call_error cmd] is [Some msg] when
    [subprocess.call(cmd)] raises (the program cannot be started);
    [startfile_error path] is [Some msg] when [os.startfile(path)] raises
    (the file is missing, or no program is associated with it);
    [browser_error url] is [Some msg] when [webbrowser.open_new_tab(url)]
    raises. *)
Record System : Type := mkSystem {
  platform : string;
  temp_name : nat -> string -> string;
  splitext_root : string -> string;
  call_error : list string -> option string;
  startfile_error : string -> option string;
  browser_error : string -> option string
}.

(** ** Calls that leave the plugin *)

Inductive call : Type :=
| ViewInsert (pt : Z) (s : string)
| ViewFold (r : Region.t)
| ViewUnfold (r : Region.t)
| ViewShow (r : Region.t)
| SelClear
| SelAdd (r : Region.t)
| TempFile (suffix name : string)
| FileWrite (name contents : string)
| FileClose (name : string)
| SubprocessCall (cmd : list string)
| ErrorMessage (msg : string)
| OpenNewTab (url : string)
| StartFile (path : string).

(** Python exceptions: the ones the sources raise themselves ([Exception])
    and the ones raised by the runtime under them.  [WindowsError] is what
    [os.startfile] raises, [WebbrowserError] is [webbrowser.Error]. *)
Inductive exn : Type :=
| Exception (msg : string)
| AttributeError (msg : string)
| TypeError (msg : string)
| IndexError (msg : string)
| OSError (msg : string)
| UnicodeEncodeError (msg : string)
| WindowsError (msg : string)
| WebbrowserError (msg : string).

Definition exn_str (e : exn) : string :=
  match e with
  | Exception m | AttributeError m | TypeError m | IndexError m | OSError m
  | UnicodeEncodeError m | WindowsError m | WebbrowserError m => m
  end.

(** ** The command monad

    A command runs from a world (the view and the number of temporary files
    created so far) and yields the calls it made, the world it leaves and how
    it ended.  [OutOfFuel] only arises from the loops and the recursion of the
    folding commands, which are given a bound on their number of steps. *)

Record World : Type := mkWorld { view : View; temps : nat }.

Inductive outcome (A : Type) : Type :=
| Return (x : A)
| Raise (e : exn)
| OutOfFuel.
Arguments Return {A} x.
Arguments Raise {A} e.
Arguments OutOfFuel {A}.

Record result (A : Type) : Type := mkResult {
  calls : list call;
  world : World;
  ending : outcome A
}.
Arguments mkResult {A}.
Arguments calls {A}.
Arguments world {A}.
Arguments ending {A}.

Definition Cmd (A : Type) : Type := World -> result A.

Definition ret {A} (x : A) : Cmd A := fun w => mkResult [] w (Return x).
Definition raise {A} (e : exn) : Cmd A := fun w => mkResult [] w (Raise e).
Definition out_of_fuel {A} : Cmd A := fun w => mkResult [] w OutOfFuel.

Definition bind {A B} (c : Cmd A) (k : A -> Cmd B) : Cmd B :=
  fun w =>
    match c w with
    | mkResult l w' (Return x) =>
        match k x w' with
        | mkResult l' w'' e => mkResult (l ++ l') w'' e
        end
    | mkResult l w' (Raise e) => mkResult l w' (Raise e)
    | mkResult l w' OutOfFuel => mkResult l w' OutOfFuel
    end.

(** [try: c except Exception as e: h e] *)
Definition catch {A} (c : Cmd A) (h : exn -> Cmd A) : Cmd A :=
  fun w =>
    match c w with
    | mkResult l w' (Raise e) =>
        match h e w' with
        | mkResult l' w'' e' => mkResult (l ++ l') w'' e'
        end
    | r => r
    end.

Declare Scope cmd_scope.
Delimit Scope cmd_scope with cmd.
Notation "x <- c ;; k" := (bind c (fun x => k))
  (at level 100, c at next level, right associativity) : cmd_scope.
Notation "c ;; k" := (bind c (fun _ => k))
  (at level 100, right associativity) : cmd_scope.
Local Open Scope cmd_scope.

Definition get_view : Cmd View := fun w => mkResult [] w (Return (view w)).

(** A request to the editor: logged, and the view replaced by the editor's. *)
Definition request (c : call) (f : View -> View) : Cmd unit :=
  fun w => mkResult [c] (mkWorld (f (view w)) (temps w)) (Return tt).

(** A request to the operating system: logged, the view is not involved. *)
Definition emit (c : call) : Cmd unit :=
  fun w => mkResult [c] w (Return tt).

(** [for x in xs: body x], over a Python list or [range]. *)
Fixpoint for_each {A} (xs : list A) (body : A -> Cmd unit) : Cmd unit :=
  match xs with
  | [] => ret tt
  | x :: xs' => body x ;; for_each xs' body
  end.

(** [range(lo, hi)] *)
Definition range (lo hi : Z) : list Z :=
  map (fun k => lo + Z.of_nat k) (seq 0 (Z.to_nat (hi - lo))).

Definition tab : string := String (ascii_of_nat 9) EmptyString.
Definition newline : string := String (ascii_of_nat 10) EmptyString.

(** ** Text written to a file

    The editor hands out its text as a [unicode] object, and the sources run
    under the Python 2 of the editor.  A file object takes bytes: a [unicode]
    object written to it is first encoded with the default codec, ASCII, and
    the write raises [UnicodeEncodeError] when a character is outside ASCII,
    before any byte is written.  The characters of a buffer are modelled by
    their codes up to 255; the codes from 128 on are the characters outside
    ASCII. *)

Definition is_ascii_char (c : ascii) : bool := (nat_of_ascii c <? 128)%nat.

Definition is_ascii (s : string) : bool :=
  forallb is_ascii_char (list_ascii_of_string s).

(** The characters outside ASCII that [s] starts with. *)
Fixpoint non_ascii_run (s : string) : string :=
  match s with
  | String c s' =>
      if is_ascii_char c then EmptyString else String c (non_ascii_run s')
  | EmptyString => EmptyString
  end.

Definition decimal (n : nat) : string :=
  NilEmpty.string_of_uint (Nat.to_uint n).

Definition hex_digit (n : nat) : ascii :=
  nth n ["0"; "1"; "2"; "3"; "4"; "5"; "6"; "7"; "8"; "9";
         "a"; "b"; "c"; "d"; "e"; "f"]%char "0"%char.

(** [str(e)] for the [UnicodeEncodeError] of the ASCII codec on the
    characters from [start] to [start + more], [c] being the first. *)
Definition encode_message (c : ascii) (start more : nat) : string :=
  match more with
  | O =>
      "'ascii' codec can't encode character u'\x"
      ++ String (hex_digit (nat_of_ascii c / 16))
           (String (hex_digit (nat_of_ascii c mod 16)) EmptyString)
      ++ "' in position " ++ decimal start
      ++ ": ordinal not in range(128)"
  | S _ =>
      "'ascii' codec can't encode characters in position " ++ decimal start
      ++ "-" ++ decimal (start + more) ++ ": ordinal not in range(128)"
  end.

(** The message of the [UnicodeEncodeError] that encoding [s] with the ASCII
    codec raises, [pos] being the position of the head of [s]; [None] if all
    of [s] is ASCII. *)
Fixpoint encode_error_from (s : string) (pos : nat) : option string :=
  match s with
  | EmptyString => None
  | String c s' =>
      if is_ascii_char c then encode_error_from s' (S pos)
      else Some (encode_message c pos (String.length (non_ascii_run s')))
  end.

Definition encode_error (s : string) : option string := encode_error_from s 0.

(** ** pandoc_render.py *)

Module PandocRenderCommand.
Section Command.

Variable host : Host.
Variable sys : System.

(** [tempfile.NamedTemporaryFile(delete=False, suffix=suffix)]; the value
    is the [name] of the file object. *)
Definition NamedTemporaryFile (suffix : string) : Cmd string :=
  fun w =>
    let name := temp_name sys (temps w) suffix in
    mkResult [TempFile suffix name] (mkWorld (view w) (S (temps w)))
             (Return name).

(** [f.write(contents)] on the binary file [name], [contents] being the
    [unicode] text of the buffer. *)
Definition file_write (name contents : string) : Cmd unit :=
  match encode_error contents with
  | Some msg => raise (UnicodeEncodeError msg)
  | None => emit (FileWrite name contents)
  end.

(** [subprocess.call(cmd)]: blocks until the child has finished. *)
Definition subprocess_call (cmd : list string) : Cmd unit :=
  emit (SubprocessCall cmd) ;;
  match call_error sys cmd with
  | Some msg => raise (OSError msg)
  | None => ret tt
  end.

(** [os.startfile(path)]: returns as soon as the program is started. *)
Definition os_startfile (path : string) : Cmd unit :=
  emit (StartFile path) ;;
  match startfile_error sys path with
  | Some msg => raise (WindowsError msg)
  | None => ret tt
  end.

(** [webbrowser.open_new_tab(url)]; its boolean result is dropped by the
    source. *)
Definition open_new_tab (url : string) : Cmd unit :=
  emit (OpenNewTab url) ;;
  match browser_error sys url with
  | Some msg => raise (WebbrowserError msg)
  | None => ret tt
  end.

(** [os.path.splitext(p)[0]]; [p] is [None] for a buffer without file. *)
Definition splitext0 (p : option string) : Cmd string :=
  match p with
  | None => raise (AttributeError "'NoneType' object has no attribute 'rfind'")
  | Some p => ret (splitext_root sys p)
  end.

(** Truth value of [view.file_name()]: [None] and [''] are false. *)
Definition truthy_name (p : option string) : bool :=
  match p with
  | None => false
  | Some EmptyString => false
  | Some _ => true
  end.

Definition supported_targets : list string := ["html"; "docx"; "pdf"].

Definition unsupported_format (target : string) : exn :=
  Exception ("Format " ++ target ++ " currently unsopported").

Definition please_save : exn :=
  Exception "Please safe the buffer before trying to export with pandoc.".

Definition pandoc_args (target : string) : option (list string) :=
  if (target =? "pdf")%string then Some []
  else if (target =? "html")%string then Some ["-t"; "html5"]
  else if (target =? "docx")%string then Some ["-t"; "docx"]
  else None.

Definition run_pandoc (infile outfile : string)
           (args : option (list string)) : Cmd unit :=
  match args with
  | None =>
      raise (TypeError "can only concatenate list (not 'NoneType') to list")
  | Some args =>
      let cmd := (["pandoc"] ++ args)%list in
      let cmd := (cmd ++ [infile; "-o"; outfile])%list in
      catch (subprocess_call cmd)
            (fun e => emit (ErrorMessage
               ("Unable to execute Pandoc.  " ++ newline ++ newline
                ++ "Details: " ++ exn_str e)))
  end.

Definition open_result (outfile target : string) : Cmd unit :=
  if (target =? "html")%string then open_new_tab outfile
  else if (platform sys =? "windows")%string then os_startfile outfile
  else if (platform sys =? "osx")%string then subprocess_call ["open"; outfile]
  else if (platform sys =? "linux")%string then
    subprocess_call ["xdg-open"; outfile]
  else ret tt.

Definition run (target : string) (openAfter saveResult : bool)
           (additionalArguments : list string) : Cmd unit :=
  if negb (existsb (String.eqb target) supported_targets)
  then raise (unsupported_format target)
  else
    let encoding := encoding host in
    let encoding :=
      if (encoding =? "Undefined")%string then "UTF-8"
      else if (encoding =? "Western (Windows 1252)")%string
           then "windows-1252"
           else encoding in
    v <- get_view ;;
    let contents := substr v (Region.mk 0 (size v)) in
    tmp_md <- NamedTemporaryFile ".md" ;;
    file_write tmp_md contents ;;
    emit (FileClose tmp_md) ;;
    let suffix := "." ++ target in
    output_name <-
      (if saveResult then
         root <- splitext0 (file_name host) ;;
         let output_name := root ++ suffix in
         if negb (truthy_name (file_name host))
         then raise please_save
         else ret output_name
       else
         output <- NamedTemporaryFile suffix ;;
         emit (FileClose output) ;;
         ret output) ;;
    let args := pandoc_args target in
    run_pandoc tmp_md output_name args ;;
    if openAfter then open_result output_name target else ret tt.

End Command.
End PandocRenderCommand.

(** ** smart_folding.py *)

(** The module [headline] is imported by [smart_folding.py] and is not among
    the sources: the functions the folding commands call are parameters.  The
    last argument of [find_headline] is the keyword argument
    [skip_headline_at_point], [None] where the call leaves it out. *)
Record Headline : Type := mkHeadline {
  ANY_LEVEL : Z;
  headline_and_level_at_point : View -> Z -> option Region.t * option Z;
  is_scope_headline : View -> Z -> bool;
  region_of_content_of_headline_at_point : View -> Z -> option Region.t;
  find_headline :
    View -> Z -> Z -> bool -> option bool -> option Region.t * option Z
}.

(** Truth value of a value that is a region or [None]: a region object is
    true, whatever its bounds. *)
Definition truthy (r : option Region.t) : bool :=
  match r with Some _ => true | None => false end.

(** [for r in self.view.sel(): ...]: the selection is the editor's live
    object, read again at each step by index.  [acc] carries the local
    variables the body updates. *)
Fixpoint for_sel {A} (fuel : nat) (i : nat)
         (body : Region.t -> A -> Cmd A) (acc : A) : Cmd A :=
  match fuel with
  | O => out_of_fuel
  | S fuel' =>
      v <- get_view ;;
      match nth_error (sel v) i with
      | None => ret acc
      | Some r => acc' <- body r acc ;; for_sel fuel' (S i) body acc'
      end
  end.

Module SmartFoldingCommand.
Section Command.

Variable host : Host.
Variable hl : Headline.

Definition view_fold (r : Region.t) : Cmd unit :=
  request (ViewFold r) (fun v => fold host v r).
Definition view_unfold (r : Region.t) : Cmd unit :=
  request (ViewUnfold r) (fun v => unfold host v r).
Definition view_insert (pt : Z) (s : string) : Cmd unit :=
  request (ViewInsert pt s) (fun v => insert host v pt s).
Definition view_show (r : Region.t) : Cmd unit := emit (ViewShow r).

Definition fold (region : Region.t) : Cmd unit := view_fold region.

Definition is_region_totally_folded (v : View) (region : option Region.t)
  : bool :=
  match region with
  | None => true
  | Some region =>
      if Region.a region =? Region.b region then true
      else existsb (fun i => Region.contains i region) (folded_regions v)
  end.

(** The body of [unfold_yet_fold_subheads], with the call back into
    [fold_or_unfold_headline_at_point] left open. *)
Definition unfold_yet_fold_subheads_with
           (fold_or_unfold : Z -> Z -> Cmd bool)
           (region : Region.t) (level : Z) : Cmd unit :=
  view_unfold region ;;
  v <- get_view ;;
  let '(start_line, _) := rowcol host v (Region.a region) in
  let '(end_line, _) := rowcol host v (Region.b region) in
  for_each (range start_line (end_line + 1))
    (fun i =>
       v <- get_view ;;
       let region := text_point host v i 0 in
       fold_or_unfold region (level + 1) ;;
       ret tt).

Fixpoint fold_or_unfold_headline_at_point (fuel : nat)
         (from_point level : Z) : Cmd bool :=
  match fuel with
  | O => out_of_fuel
  | S fuel' =>
      v <- get_view ;;
      let '(_, level) := headline_and_level_at_point hl v from_point in
      match level with
      | None => ret false
      | Some level =>
          if negb (is_scope_headline hl v from_point) then ret false
          else
            match region_of_content_of_headline_at_point hl v from_point with
            | None => ret true
            | Some content_region =>
                (if is_region_totally_folded v (Some content_region)
                 then unfold_yet_fold_subheads_with
                        (fold_or_unfold_headline_at_point fuel')
                        content_region level
                 else fold content_region) ;;
                ret true
            end
      end
  end.

Definition unfold_yet_fold_subheads (fuel : nat)
           (region : Region.t) (level : Z) : Cmd unit :=
  unfold_yet_fold_subheads_with (fold_or_unfold_headline_at_point fuel)
                                region level.

(** Body of the first loop of [run]: toggle at the selection point and
    remember whether a headline was there. *)
Definition match_body (fuel : nat) (region : Region.t) (ever_matched : bool)
  : Cmd bool :=
  matched <- fold_or_unfold_headline_at_point fuel (Region.a region)
               (ANY_LEVEL hl) ;;
  ret (if matched : bool then true else ever_matched).

(** Body of the second loop of [run]. *)
Definition tab_body (r : Region.t) (_ : unit) : Cmd unit :=
  view_insert (Region.a r) tab ;; view_show r.

Definition run (fuel : nat) : Cmd unit :=
  ever_matched <- for_sel fuel 0 (match_body fuel) false ;;
  if negb ever_matched then for_sel fuel 0 tab_body tt else ret tt.

End Command.
End SmartFoldingCommand.

Module GlobalFoldingCommand.
Section Command.

Variable host : Host.
Variable hl : Headline.

Import SmartFoldingCommand.

(** [while (point is not None and region): ...] of [is_global_folded];
    [point] is an offset throughout, so only [region] decides. *)
Fixpoint is_global_folded_while (fuel : nat) (point : Z)
         (region : option Region.t) : Cmd bool :=
  if negb (truthy region) then ret true
  else
    match fuel with
    | O => out_of_fuel
    | S fuel' =>
        v <- get_view ;;
        let region := region_of_content_of_headline_at_point hl v point in
        let point :=
          match region with Some r => Region.b r | None => point end in
        if negb (is_region_totally_folded v region) then ret false
        else
          let '(region, level) :=
            find_headline hl v point (ANY_LEVEL hl) true (Some true) in
          let point :=
            match region with Some r => Region.a r | None => point end in
          is_global_folded_while fuel' point region
    end.

Definition is_global_folded (fuel : nat) : Cmd bool :=
  v <- get_view ;;
  let '(region, level) := find_headline hl v 0 (ANY_LEVEL hl) true None in
  match region with
  | None => ret true
  | Some r => is_global_folded_while fuel (Region.a r) region
  end.

Definition unfold_all : Cmd unit :=
  v <- get_view ;;
  view_unfold host (Region.mk 0 (size v)) ;;
  v <- get_view ;;
  match sel v with
  | [] => raise (IndexError "")
  | r :: _ => view_show r
  end.

Definition adjust_cursors_and_view (fuel : nat) : Cmd unit :=
  v <- get_view ;;
  let folded_regions := folded_regions v in
  new_sel <-
    for_sel fuel 0
      (fun r new_sel =>
         ret (new_sel ++
              [match find (fun folded => Region.contains folded r)
                          folded_regions with
               | Some folded => Region.mk (Region.b folded) (Region.b folded)
               | None => r
               end])%list)
      [] ;;
  request SelClear (sel_clear host) ;;
  for_each new_sel
    (fun r => request (SelAdd r) (fun v => sel_add host v r) ;; view_show r).

(** [while (point is not None and region): ...] of [fold_all]. *)
Fixpoint fold_all_while (fuel : nat) (point : Z)
         (region : option Region.t) : Cmd unit :=
  if negb (truthy region) then ret tt
  else
    match fuel with
    | O => out_of_fuel
    | S fuel' =>
        v <- get_view ;;
        let region := region_of_content_of_headline_at_point hl v point in
        point <-
          match region with
          | Some r => view_fold host r ;; ret (Region.b r)
          | None => ret point
          end ;;
        v <- get_view ;;
        let '(region, level) :=
          find_headline hl v point (ANY_LEVEL hl) true (Some true) in
        let point :=
          match region with Some r => Region.a r | None => point end in
        fold_all_while fuel' point region
    end.

Definition fold_all (fuel : nat) : Cmd unit :=
  v <- get_view ;;
  let '(region, level) := find_headline hl v 0 (ANY_LEVEL hl) true None in
  match region with
  | None => raise (AttributeError "'NoneType' object has no attribute 'a'")
  | Some r =>
      fold_all_while fuel (Region.a r) region ;;
      adjust_cursors_and_view fuel
  end.

Definition run (fuel : nat) : Cmd unit :=
  folded <- is_global_folded fuel ;;
  if folded : bool then unfold_all else fold_all fuel.

End Command.
End GlobalFoldingCommand.

(** ** A reference editor and a reference [headline] module

    The statements below hold for every editor and, where they name them,
    under explicit assumptions on the editor and on [headline].  To show that
    these assumptions can be met, and to run the commands on concrete
    buffers, this section gives one editor that follows the documented
    behaviour of the Sublime Text API and one [headline] module for
    markdown's [#] headlines. *)

Module Reference.

Definition is_newline (c : ascii) : bool := Ascii.eqb c (ascii_of_nat 10).
Definition is_hash (c : ascii) : bool := Ascii.eqb c "#"%char.
(** The characters [\s] of a Python 2 pattern stands for: blank, tab, line
    feed, vertical tab, form feed and carriage return. *)
Definition is_space (c : ascii) : bool :=
  Ascii.eqb c " "%char
  || existsb (fun n => Ascii.eqb c (ascii_of_nat n)) [9; 10; 11; 12; 13]%nat.

(** The lines of a buffer, each with the offset of its first character.
    [pos] is the offset of the head of [s], [start] and [cur] the offset and
    the characters read so far of the line being read. *)
Fixpoint lines_from (s : string) (pos start : Z) (cur : string)
  : list (Z * string) :=
  match s with
  | EmptyString => [(start, cur)]
  | String c s' =>
      if is_newline c
      then (start, cur) :: lines_from s' (pos + 1) (pos + 1) EmptyString
      else lines_from s' (pos + 1) start (cur ++ String c EmptyString)
  end.

Definition lines (v : View) : list (Z * string) :=
  lines_from (text v) 0 0 EmptyString.

(** Offset of the first character of the line that holds [pt]. *)
Definition line_start (v : View) (pt : Z) : Z :=
  fold_left (fun acc l => if fst l <=? pt then fst l else acc) (lines v) 0.

(** *** The editor *)

Definition shift (pt len p : Z) : Z := if pt <=? p then p + len else p.

Definition shift_region (pt len : Z) (r : Region.t) : Region.t :=
  Region.mk (shift pt len (Region.a r)) (shift pt len (Region.b r)).

(** [view.insert(edit, pt, s)]: the text after [pt] moves right, and so do
    the regions. *)
Definition insert (v : View) (pt : Z) (s : string) : View :=
  let n := Z.to_nat pt in
  let len := Z.of_nat (String.length s) in
  mkView (String.substring 0 n (text v) ++ s
          ++ String.substring n (String.length (text v) - n) (text v))
         (map (shift_region pt len) (sel v))
         (map (shift_region pt len) (folded_regions v)).

(** [view.fold(region)]: nothing happens when the region is empty or is
    folded already. *)
Definition fold (v : View) (r : Region.t) : View :=
  if (Region.a r =? Region.b r) || existsb (Region.eqb r) (folded_regions v)
  then v
  else mkView (text v) (sel v) (folded_regions v ++ [r]).

(** [view.unfold(region)]: "unfolds all text in the region": every fold
    that hides a character of the region is removed. *)
Definition unfold (v : View) (r : Region.t) : View :=
  mkView (text v) (sel v)
         (filter (fun f => negb (Region.intersects f r)) (folded_regions v)).

Definition sel_clear (v : View) : View :=
  mkView (text v) [] (folded_regions v).

Definition sel_add (v : View) (r : Region.t) : View :=
  mkView (text v) (sel v ++ [r]) (folded_regions v).

(** [view.rowcol(pt)] *)
Definition rowcol (v : View) (pt : Z) : Z * Z :=
  (Z.of_nat (List.length (filter (fun l => fst l <=? pt) (lines v))) - 1,
   pt - line_start v pt).

(** [view.text_point(row, col)] *)
Definition text_point (v : View) (row col : Z) : Z :=
  match nth_error (lines v) (Z.to_nat row) with
  | Some l => fst l + col
  | None => size v
  end.

Definition editor (file_name : option string) : Host :=
  mkHost insert fold unfold sel_clear sel_add rowcol text_point
         "UTF-8" file_name.

(** [p.rfind(c)]: the last position of [c] in [p], or [-1]. *)
Fixpoint rfind_from (c : ascii) (p : string) (pos found : Z) : Z :=
  match p with
  | EmptyString => found
  | String x p' =>
      rfind_from c p' (pos + 1) (if Ascii.eqb x c then pos else found)
  end.

Definition rfind (c : ascii) (p : string) : Z := rfind_from c p 0 (-1).

(** [os.path.splitext(p)[0]], as [genericpath._splitext] computes it with
    the separators of the platform: the extension starts at the last dot of
    the last component, unless only dots stand before it there. *)
Definition splitext_root (sep : ascii) (altsep : option ascii) (p : string)
  : string :=
  let sepIndex :=
    match altsep with
    | Some altsep => Z.max (rfind sep p) (rfind altsep p)
    | None => rfind sep p
    end in
  let dotIndex := rfind "."%char p in
  if sepIndex <? dotIndex then
    let before :=
      String.substring (Z.to_nat (sepIndex + 1))
                       (Z.to_nat (dotIndex - sepIndex - 1)) p in
    if forallb (Ascii.eqb "."%char) (list_ascii_of_string before) then p
    else String.substring 0 (Z.to_nat dotIndex) p
  else p.

(** A system on which every program starts: [posixpath] for the paths, and
    [ntpath] on Windows. *)
Definition system (platform : string) : System :=
  mkSystem platform
           (fun k suffix =>
              "/tmp/tmp" ++ String (ascii_of_nat (48 + k)) suffix)
           (if (platform =? "windows")%string
            then splitext_root "\"%char (Some "/"%char)
            else splitext_root "/"%char None)
           (fun _ => None)
           (fun _ => None)
           (fun _ => None).

(** *** The [headline] module *)

Fixpoint count_hashes (s : string) : nat * string :=
  match s with
  | String c s' =>
      if is_hash c
      then let '(n, rest) := count_hashes s' in (S n, rest)
      else (O, s)
  | EmptyString => (O, s)
  end.

(** Modelled from the spec: the headline-level detection of the missing
    module [headline], after [HEADLINE_PATTERN = '^(#+)\s.*'] of
    [smart_folding.py]: the level of a line is the number of its leading
    [#], which a blank must follow. *)
Definition level_of_line (line : string) : option Z :=
  match count_hashes line with
  | (S n, String c _) => if is_space c then Some (Z.of_nat (S n)) else None
  | _ => None
  end.

(** The headlines of the buffer: offset of the line and level. *)
Definition headlines (v : View) : list (Z * Z) :=
  flat_map (fun l => match level_of_line (snd l) with
                     | Some lv => [(fst l, lv)]
                     | None => []
                     end) (lines v).

Definition headline_region (h : Z * Z) : Region.t :=
  Region.mk (fst h) (fst h + snd h + 1).

(** Modelled from the spec: [headline.headline_and_level_at_point], missing
    from the sources: the headline on the line of [from_point], if that
    line is one, and its level. *)
Definition headline_and_level_at_point (v : View) (from_point : Z)
  : option Region.t * option Z :=
  match find (fun h => fst h =? line_start v from_point) (headlines v) with
  | Some h => (Some (headline_region h), Some (snd h))
  | None => (None, None)
  end.

(** Modelled from the spec: [headline.is_scope_headline], missing from the
    sources: whether the editor's syntax scope at the point is a heading;
    here, whether the line is a headline. *)
Definition is_scope_headline (v : View) (from_point : Z) : bool :=
  existsb (fun h => fst h =? line_start v from_point) (headlines v).

Definition ANY_LEVEL : Z := -1.

(** Modelled from the spec: [headline.find_headline], missing from the
    sources: the next headline from [from_point] on (the previous one when
    [forward] is false), of any level for [ANY_LEVEL] and otherwise of the
    same or a higher level (fewer [#]); the headline on the line of
    [from_point] is left out when [skip_headline_at_point] is set. *)
Definition find_headline (v : View) (from_point level : Z) (forward : bool)
           (skip_headline_at_point : option bool)
  : option Region.t * option Z :=
  let skip := match skip_headline_at_point with
              | Some true => true
              | _ => false
              end in
  let level_ok (h : Z * Z) :=
    (level =? ANY_LEVEL) || (snd h <=? level) in
  let found :=
    if forward then
      find (fun h => (if skip then from_point <? fst h
                      else from_point <=? fst h) && level_ok h)
           (headlines v)
    else
      find (fun h => (if skip then fst h <? line_start v from_point
                      else fst h <=? from_point) && level_ok h)
           (rev (headlines v)) in
  match found with
  | Some h => (Some (headline_region h), Some (snd h))
  | None => (None, None)
  end.

(** Modelled from the spec: [headline.region_of_content_of_headline_at_point],
    missing from the sources: the content of a headline runs from the line
    after it to the next headline of the same or a higher level, or to the
    end of the buffer; [None] when the point is not on a headline or the
    content is empty. *)
Definition region_of_content_of_headline_at_point (v : View)
           (from_point : Z) : option Region.t :=
  match headline_and_level_at_point v from_point with
  | (_, None) => None
  | (_, Some level) =>
      match find (fun l => from_point <? fst l) (lines v) with
      | None => None
      | Some l =>
          let content_line_start_point := fst l in
          let end_pos :=
            match find_headline v content_line_start_point level true None
            with
            | (Some next_headline, _) => Region.a next_headline - 1
            | (None, _) => size v
            end in
          if content_line_start_point <? end_pos
          then Some (Region.mk content_line_start_point end_pos)
          else None
      end
  end.

(** Modelled from the spec: the missing module [headline], as the record of
    the functions the folding commands call. *)
Definition headline : Headline :=
  mkHeadline ANY_LEVEL headline_and_level_at_point is_scope_headline
             region_of_content_of_headline_at_point find_headline.

Definition buffer (s : string) (cursors : list Z) (folds : list Region.t)
  : View :=
  mkView s (map (fun p => Region.mk p p) cursors) folds.

Definition start (v : View) : World := mkWorld v 0.

(** A buffer of four lines: a headline, a subheadline, a headline below
    that, and a line of text.  The offsets of the lines are 0, 5, 11 and
    18, and the buffer has 22 characters. *)
Definition outline : string :=
  "# H1" ++ newline ++ "## S1" ++ newline ++ "### SS" ++ newline ++ "text".

Definition H1_content : Region.t := Region.mk 5 22.
Definition S1_content : Region.t := Region.mk 11 22.
Definition SS_content : Region.t := Region.mk 18 22.

End Reference.

(** ** Vocabulary of the statements *)

Definition raises {A} (r : result A) : Prop :=
  exists e, ending r = Raise e.

Definition returns {A} (r : result A) : Prop :=
  exists x, ending r = Return x.

Definition is_subprocess (c : call) : bool :=
  match c with SubprocessCall _ => true | _ => false end.

Definition is_temp_file (c : call) : bool :=
  match c with TempFile _ _ => true | _ => false end.

(** The calls that start a program: [subprocess.call], and also
    [os.startfile] and [webbrowser.open_new_tab], which start one without
    [subprocess]. *)
Definition launches (c : call) : bool :=
  match c with
  | SubprocessCall _ | StartFile _ | OpenNewTab _ => true
  | _ => false
  end.

(** The call by which [open_result] opens [outfile]: the browser for html,
    and otherwise what the platform has. *)
Definition opener (sys : System) (target outfile : string) (c : call) : Prop :=
  (target = "html" /\ c = OpenNewTab outfile)
  \/ (target <> "html"
      /\ ((platform sys = "windows" /\ c = StartFile outfile)
          \/ (platform sys = "osx" /\ c = SubprocessCall ["open"; outfile])
          \/ (platform sys = "linux"
              /\ c = SubprocessCall ["xdg-open"; outfile]))).

(** The calls that ask the editor for something. *)
Definition is_editor_call (c : call) : bool :=
  match c with
  | ViewInsert _ _ | ViewFold _ | ViewUnfold _ | ViewShow _
  | SelClear | SelAdd _ => true
  | _ => false
  end.

(** The calls that ask the operating system, not the editor. *)
Definition system_call (c : call) : bool := negb (is_editor_call c).

(** The calls through which the three entities of the view can change:
    [insert], [fold], [unfold] and the operations of [sel()]. *)
Definition is_mutator (c : call) : bool :=
  match c with
  | ViewInsert _ _ | ViewFold _ | ViewUnfold _ | SelClear | SelAdd _ => true
  | _ => false
  end.

(** What the editor makes of one call, and of a log of calls. *)
Definition apply_call (host : Host) (v : View) (c : call) : View :=
  match c with
  | ViewInsert pt s => insert host v pt s
  | ViewFold r => fold host v r
  | ViewUnfold r => unfold host v r
  | SelClear => sel_clear host v
  | SelAdd r => sel_add host v r
  | _ => v
  end.

Definition replay (host : Host) (v : View) (l : list call) : View :=
  fold_left (apply_call host) l v.

(** The same editor, reporting another encoding for the buffer. *)
Definition with_encoding (host : Host) (e : string) : Host :=
  mkHost (insert host) (fold host) (unfold host) (sel_clear host)
         (sel_add host) (rowcol host) (text_point host) e (file_name host).

(** The point lies on a headline, as [fold_or_unfold_headline_at_point]
    tests it. *)
Definition on_headline (hl : Headline) (v : View) (pt : Z) : bool :=
  match snd (headline_and_level_at_point hl v pt) with
  | None => false
  | Some _ => is_scope_headline hl v pt
  end.

(** [fold] and [unfold], the two calls of the headline toggle. *)
Definition is_folding (c : call) : bool :=
  match c with ViewFold _ | ViewUnfold _ => true | _ => false end.

Definition is_insert (c : call) : bool :=
  match c with ViewInsert _ _ => true | _ => false end.

(** A command keeps to the calls [ok] when, from every world, each call it
    logs satisfies [ok] and the view it leaves is the one the editor makes of
    the logged calls, in their order. *)
Definition logs (host : Host) (ok : call -> bool) {A} (c : Cmd A) : Prop :=
  forall w,
    Forall (fun x => ok x = true) (calls (c w))
    /\ view (world (c w)) = replay host (view w) (calls (c w)).

(** A tab is inserted at the position of each selection region, from the
    [i]-th on; the regions are the editor's current ones at each step. *)
Inductive tabs_at_selections (host : Host)
  : nat -> View -> list call -> View -> Prop :=
| tabs_done i v :
    nth_error (sel v) i = None -> tabs_at_selections host i v [] v
| tabs_step i v r l v' :
    nth_error (sel v) i = Some r ->
    tabs_at_selections host (S i) (insert host v (Region.a r) tab) l v' ->
    tabs_at_selections host i v
      (ViewInsert (Region.a r) tab :: ViewShow r :: l) v'.

(** A command that never ends in an exception. *)
Definition never_raises {A} (c : Cmd A) : Prop :=
  forall w e, ending (c w) <> Raise e.

(** Folding and unfolding leave the selection alone and do not move the
    headlines: what the editor is expected to do, as neither edits the
    text. *)
Definition folding_keeps_headlines (host : Host) (hl : Headline) : Prop :=
  forall v r,
    sel (fold host v r) = sel v
    /\ sel (unfold host v r) = sel v
    /\ (forall pt, on_headline hl (fold host v r) pt = on_headline hl v pt)
    /\ (forall pt, on_headline hl (unfold host v r) pt = on_headline hl v pt).

(** The search point of the headline scans moves forward: the content of a
    headline does not end before the point it was asked for, and the next
    headline past a point starts after it, inside the buffer. *)
Definition scans_forward (hl : Headline) : Prop :=
  (forall v pt r,
      region_of_content_of_headline_at_point hl v pt = Some r ->
      pt <= Region.b r)
  /\ (forall v pt r lv,
         find_headline hl v pt (ANY_LEVEL hl) true (Some true) = (Some r, lv) ->
         pt < Region.a r <= size v).

(** ** Concrete worlds *)

Module Examples.

Definition editor : Host := Reference.editor None.

Definition at_cursor (pt : Z) (folds : list Region.t) : World :=
  Reference.start (Reference.buffer Reference.outline [pt] folds).

(** A headline with two subheadlines and no deeper level; the lines start
    at 0, 5, 11, 13 and 19, and the buffer has 20 characters. *)
Definition flat_outline : string :=
  "# H1" ++ newline ++ "## S1" ++ newline ++ "a" ++ newline ++ "## S2"
  ++ newline ++ "b".

Definition flat_at_cursor (pt : Z) (folds : list Region.t) : World :=
  Reference.start (Reference.buffer flat_outline [pt] folds).

End Examples.

(** ** More vocabulary *)

(** What [run_pandoc] logs after its call when pandoc could not be started. *)
Definition pandoc_report (sys : System) (cmd : list string) : list call :=
  match call_error sys cmd with
  | Some msg =>
      [ErrorMessage ("Unable to execute Pandoc.  " ++ newline ++ newline
                     ++ "Details: " ++ msg)]
  | None => []
  end.

(** The platforms [open_result] knows. *)
Definition known_platform (sys : System) : bool :=
  ((platform sys =? "windows") || (platform sys =? "osx")
   || (platform sys =? "linux"))%string.

(** The calls of the second loop of [SmartFoldingCommand.run]: a tab
    inserted, a region shown. *)
Definition is_tab_or_show (c : call) : bool :=
  match c with
  | ViewInsert _ s => String.eqb s tab
  | ViewShow _ => true
  | _ => false
  end.

(** What [headline] and the editor's line arithmetic answer depends on the
    text of the buffer only, not on the selection or the folds. *)
Definition reads_text_only (host : Host) (hl : Headline) : Prop :=
  forall v v',
    text v = text v' ->
    (forall pt,
        headline_and_level_at_point hl v pt
        = headline_and_level_at_point hl v' pt
        /\ is_scope_headline hl v pt = is_scope_headline hl v' pt
        /\ region_of_content_of_headline_at_point hl v pt
           = region_of_content_of_headline_at_point hl v' pt
        /\ rowcol host v pt = rowcol host v' pt)
    /\ (forall pt level forward skip,
           find_headline hl v pt level forward skip
           = find_headline hl v' pt level forward skip)
    /\ (forall row col, text_point host v row col = text_point host v' row col).

(** Folding is not editing, and it folds: [fold] and [unfold] keep the text,
    a region just folded counts as totally folded, and what was totally
    folded stays so when more is folded. *)
Definition editor_folds (host : Host) : Prop :=
  forall v r,
    text (fold host v r) = text v
    /\ text (unfold host v r) = text v
    /\ SmartFoldingCommand.is_region_totally_folded (fold host v r) (Some r)
       = true
    /\ (forall x,
           SmartFoldingCommand.is_region_totally_folded v x = true ->
           SmartFoldingCommand.is_region_totally_folded (fold host v r) x
           = true).

(** Where [adjust_cursors_and_view] puts a selection region: at the end of
    the first folded region that contains it, and where it is when none
    does. *)
Definition relocate (folds : list Region.t) (r : Region.t) : Region.t :=
  match find (fun folded => Region.contains folded r) folds with
  | Some folded => Region.mk (Region.b folded) (Region.b folded)
  | None => r
  end.

(** The calls that rebuild the selection from a list of regions. *)
Definition add_all (rs : list Region.t) : list call :=
  flat_map (fun r => [SelAdd r; ViewShow r]) rs.

(** Changing the selection changes neither the text nor the folds. *)
Definition selection_is_apart (host : Host) : Prop :=
  forall v,
    (text (sel_clear host v) = text v
     /\ folded_regions (sel_clear host v) = folded_regions v)
    /\ forall r,
        text (sel_add host v r) = text v
        /\ folded_regions (sel_add host v r) = folded_regions v.

Definition is_selection_call (c : call) : bool :=
  match c with SelClear | SelAdd _ | ViewShow _ => true | _ => false end.

(** The calls the global command may make: any call to the editor but
    [insert]. *)
Definition is_view_keeping (c : call) : bool :=
  is_editor_call c && negb (is_insert c).

(** The outline nests: a headline found on a line of the content of another
    headline has a smaller content region. *)
Definition content_nests (host : Host) (hl : Headline) : Prop :=
  forall v q R i R',
    region_of_content_of_headline_at_point hl v q = Some R ->
    fst (rowcol host v (Region.a R)) <= i <= fst (rowcol host v (Region.b R)) ->
    region_of_content_of_headline_at_point hl v (text_point host v i 0)
    = Some R' ->
    Region.size R' < Region.size R.

(** How deep the toggle at a point may have to go: one call, and for a
    headline with content one more for each character of the content. *)
Definition toggle_depth (hl : Headline) (v : View) (from_point : Z) : nat :=
  match region_of_content_of_headline_at_point hl v from_point with
  | Some R => Z.to_nat (Region.size R) + 2
  | None => 1
  end.




(** A list of lines or headlines in the order of the buffer: each starts
    before all that follow. *)
Inductive in_buffer_order {B} : list (Z * B) -> Prop :=
| order_nil : in_buffer_order []
| order_cons x xs :
    in_buffer_order xs -> Forall (fun y => fst x < fst y) xs ->
    in_buffer_order (x :: xs).

(** ** More concrete worlds *)

Module Worlds.

(** Two headlines without content. *)
Definition bare_outline : string := "# A" ++ newline ++ "# B".

(** A buffer without headline. *)
Definition plain : string := "abc".

(** A buffer with a character outside ASCII: the e with an acute accent,
    of code 233. *)
Definition cafe : string := "caf" ++ String (ascii_of_nat 233) EmptyString.

(** What writing [cafe] to a file raises. *)
Definition cafe_error : exn :=
  UnicodeEncodeError
    ("'ascii' codec can't encode character u'\xe9' in position 3: "
     ++ "ordinal not in range(128)").

Definition world_of (s : string) (cursors : list Z) (folds : list Region.t)
  : World :=
  Reference.start (Reference.buffer s cursors folds).

End Worlds.

(** ** Proof automation *)

(** Case analysis over everything [run] branches on, for a fixed target. *)
Ltac run_cases host sys :=
  unfold PandocRenderCommand.run, PandocRenderCommand.run_pandoc,
    PandocRenderCommand.open_result, PandocRenderCommand.subprocess_call,
    PandocRenderCommand.os_startfile, PandocRenderCommand.open_new_tab,
    PandocRenderCommand.file_write,
    PandocRenderCommand.splitext0, PandocRenderCommand.NamedTemporaryFile,
    catch, bind, emit, raise, ret, get_view; simpl;
  repeat match goal with
    | |- context [encode_error ?s] => destruct (encode_error s); simpl
    | |- context [file_name host] =>
        destruct (file_name host) as [[|? ?]|]; simpl
    | |- context [call_error sys ?c] => destruct (call_error sys c); simpl
    | |- context [startfile_error sys ?c] =>
        destruct (startfile_error sys c); simpl
    | |- context [browser_error sys ?c] =>
        destruct (browser_error sys c); simpl
    | |- context [String.eqb (platform sys) ?s] =>
        destruct (String.eqb (platform sys) s) eqn:?; simpl
    end.

(** Case analysis over the membership of a call in a concrete log. *)
Ltac in_cases :=
  repeat match goal with
    | H : In _ (_ :: _) |- _ => destruct H as [H | H]
    | H : In _ [] |- _ => destruct H
    | H : _ \/ _ |- _ => destruct H as [H | H]
    | H : False |- _ => destruct H
    | H : SubprocessCall _ = SubprocessCall _ |- _ =>
        injection H as H; subst
    | H : _ = _ |- _ => discriminate H
    end.

(** As [run_cases], keeping what [subprocess.call] answered. *)
Ltac run_cases_eq host sys :=
  unfold PandocRenderCommand.run, PandocRenderCommand.run_pandoc,
    PandocRenderCommand.open_result, PandocRenderCommand.subprocess_call,
    PandocRenderCommand.os_startfile, PandocRenderCommand.open_new_tab,
    PandocRenderCommand.file_write,
    PandocRenderCommand.splitext0, PandocRenderCommand.NamedTemporaryFile,
    catch, bind, emit, raise, ret, get_view; simpl;
  repeat match goal with
    | |- context [encode_error ?s] => destruct (encode_error s) eqn:?; simpl
    | |- context [file_name host] =>
        destruct (file_name host) as [[|? ?]|] eqn:?; simpl
    | |- context [call_error sys ?c] =>
        destruct (call_error sys c) eqn:?; simpl
    | |- context [startfile_error sys ?c] =>
        destruct (startfile_error sys c) eqn:?; simpl
    | |- context [browser_error sys ?c] =>
        destruct (browser_error sys c) eqn:?; simpl
    | |- context [String.eqb (platform sys) ?s] =>
        destruct (String.eqb (platform sys) s) eqn:?; simpl
    end.

Create HintDb logs.

(** * The command monad and its log *)

Section Logs.

Variable host : Host.

Lemma replay_app v l l' :
  replay host v (l ++ l') = replay host (replay host v l) l'.
Proof. apply fold_left_app. Qed.

Lemma replay_mutators v l :
  replay host v (filter is_mutator l) = replay host v l.
Proof.
  revert v. induction l as [|c l IH]; intros v; [reflexivity|].
  destruct c; cbn; apply IH.
Qed.

(** Calls that are not addressed to the editor leave the view alone. *)
Lemma replay_system_calls v l :
  Forall (fun c => is_editor_call c = false) l -> replay host v l = v.
Proof.
  induction 1 as [|c l Hc _ IH]; [reflexivity|].
  destruct c; try discriminate Hc; exact IH.
Qed.

Variable ok : call -> bool.

Lemma logs_ret {A} (x : A) : logs host ok (ret x).
Proof. intros w. split; [constructor | reflexivity]. Qed.

Lemma logs_raise {A} e : logs host ok (@raise A e).
Proof. intros w. split; [constructor | reflexivity]. Qed.

Lemma logs_out_of_fuel {A} : logs host ok (@out_of_fuel A).
Proof. intros w. split; [constructor | reflexivity]. Qed.

Lemma logs_get_view : logs host ok get_view.
Proof. intros w. split; [constructor | reflexivity]. Qed.

Lemma logs_bind {A B} (c : Cmd A) (k : A -> Cmd B) :
  logs host ok c -> (forall x, logs host ok (k x)) -> logs host ok (bind c k).
Proof.
  intros Hc Hk w. unfold bind.
  specialize (Hc w). destruct (c w) as [l w' [x | e |]];
    cbn [calls world ending] in *; try exact Hc.
  specialize (Hk x w'). destruct (k x w') as [l' w'' e'];
    cbn [calls world ending] in *.
  destruct Hc as [Fc Vc], Hk as [Fk Vk]. split.
  - apply Forall_app. now split.
  - now rewrite replay_app, <- Vc.
Qed.

Lemma logs_catch {A} (c : Cmd A) (h : exn -> Cmd A) :
  logs host ok c -> (forall e, logs host ok (h e)) -> logs host ok (catch c h).
Proof.
  intros Hc Hh w. unfold catch.
  specialize (Hc w). destruct (c w) as [l w' [x | e |]];
    cbn [calls world ending] in *; try exact Hc.
  specialize (Hh e w'). destruct (h e w') as [l' w'' e'];
    cbn [calls world ending] in *.
  destruct Hc as [Fc Vc], Hh as [Fh Vh]. split.
  - apply Forall_app. now split.
  - now rewrite replay_app, <- Vc.
Qed.

Lemma logs_request c f :
  ok c = true -> (forall v, f v = apply_call host v c) ->
  logs host ok (request c f).
Proof.
  intros Hc Hf w. split; cbn; [repeat constructor; assumption | apply Hf].
Qed.

Lemma logs_emit c :
  ok c = true -> (forall v, apply_call host v c = v) -> logs host ok (emit c).
Proof.
  intros Hc Hf w. split; cbn; [repeat constructor; assumption|].
  now rewrite Hf.
Qed.

Lemma logs_for_each {A} (xs : list A) body :
  (forall x, logs host ok (body x)) -> logs host ok (for_each xs body).
Proof.
  intros Hb. induction xs as [|x xs IH]; cbn [for_each].
  - apply logs_ret.
  - apply logs_bind; [apply Hb | intros _; exact IH].
Qed.

Lemma logs_for_sel {A} fuel i (body : Region.t -> A -> Cmd A) acc :
  (forall r x, logs host ok (body r x)) ->
  logs host ok (for_sel fuel i body acc).
Proof.
  intros Hb. revert i acc.
  induction fuel as [|fuel IH]; intros i acc; cbn [for_sel].
  - apply logs_out_of_fuel.
  - apply logs_bind; [apply logs_get_view|]. intros v.
    destruct (nth_error (sel v) i); [|apply logs_ret].
    apply logs_bind; [apply Hb | intros x; apply IH].
Qed.

End Logs.

Lemma logs_weaken host (ok ok' : call -> bool) {A} (c : Cmd A) :
  (forall x, ok x = true -> ok' x = true) -> logs host ok c -> logs host ok' c.
Proof.
  intros H Hc w. destruct (Hc w) as [F V]. split; [|exact V].
  eapply Forall_impl; [|exact F]. exact H.
Qed.

#[local] Hint Resolve logs_ret logs_raise logs_out_of_fuel logs_get_view : logs.

(** * Properties of the folding commands *)

Module FoldingFacts.
Section Facts.

Variable host : Host.
Variable hl : Headline.

Lemma logs_view_fold ok r :
  ok (ViewFold r) = true -> logs host ok (SmartFoldingCommand.view_fold host r).
Proof. intros H. now apply logs_request. Qed.

Lemma logs_view_unfold ok r :
  ok (ViewUnfold r) = true ->
  logs host ok (SmartFoldingCommand.view_unfold host r).
Proof. intros H. now apply logs_request. Qed.

Lemma logs_view_insert ok pt s :
  ok (ViewInsert pt s) = true ->
  logs host ok (SmartFoldingCommand.view_insert host pt s).
Proof. intros H. now apply logs_request. Qed.

Lemma logs_view_show ok r :
  ok (ViewShow r) = true -> logs host ok (SmartFoldingCommand.view_show r).
Proof. intros H. now apply logs_emit. Qed.

(** The headline toggle only ever asks for [fold] and [unfold]. *)
Lemma logs_fold_or_unfold fuel :
  forall from_point level,
    logs host is_folding
         (SmartFoldingCommand.fold_or_unfold_headline_at_point
            host hl fuel from_point level).
Proof.
  induction fuel as [|fuel IH]; intros from_point level;
    cbn [SmartFoldingCommand.fold_or_unfold_headline_at_point].
  - apply logs_out_of_fuel.
  - apply logs_bind; [apply logs_get_view|]. intros v.
    destruct (headline_and_level_at_point hl v from_point) as [? [lv|]];
      [|apply logs_ret].
    destruct (is_scope_headline hl v from_point); cbn [negb];
      [|apply logs_ret].
    destruct (region_of_content_of_headline_at_point hl v from_point)
      as [content_region|]; [|apply logs_ret].
    apply logs_bind; [|intros _; apply logs_ret].
    destruct (SmartFoldingCommand.is_region_totally_folded
                v (Some content_region)).
    + unfold SmartFoldingCommand.unfold_yet_fold_subheads_with.
      apply logs_bind; [now apply logs_view_unfold|]. intros _.
      apply logs_bind; [apply logs_get_view|]. intros v'.
      destruct (rowcol host v' (Region.a content_region)) as [start_line ?].
      destruct (rowcol host v' (Region.b content_region)) as [end_line ?].
      apply logs_for_each. intros i.
      apply logs_bind; [apply logs_get_view|]. intros v''.
      apply logs_bind; [apply IH | intros _; apply logs_ret].
    + now apply logs_view_fold.
Qed.

Lemma logs_smart_run fuel :
  logs host is_editor_call (SmartFoldingCommand.run host hl fuel).
Proof.
  unfold SmartFoldingCommand.run.
  apply logs_bind.
  - apply logs_for_sel. intros r x. unfold SmartFoldingCommand.match_body.
    apply logs_bind; [|intros b; apply logs_ret].
    apply logs_weaken with (ok := is_folding);
      [ intros [] E; (discriminate E || reflexivity)
      | apply logs_fold_or_unfold ].
  - intros [|]; cbn [negb]; [apply logs_ret|].
    apply logs_for_sel. intros r u. unfold SmartFoldingCommand.tab_body.
    apply logs_bind; [now apply logs_view_insert|].
    intros _. now apply logs_view_show.
Qed.

Lemma logs_is_global_folded_while ok fuel :
  forall point region,
    logs host ok
         (GlobalFoldingCommand.is_global_folded_while hl fuel point region).
Proof.
  induction fuel as [|fuel IH]; intros point region;
    cbn [GlobalFoldingCommand.is_global_folded_while];
    destruct (truthy region); cbn [negb]; auto with logs.
  apply logs_bind; [apply logs_get_view|]. intros v.
  destruct (SmartFoldingCommand.is_region_totally_folded v _); cbn [negb];
    [|apply logs_ret].
  destruct (find_headline hl v _ _ _ _) as [region' level'].
  apply IH.
Qed.

Lemma logs_fold_all_while fuel :
  forall point region,
    logs host is_folding
         (GlobalFoldingCommand.fold_all_while host hl fuel point region).
Proof.
  induction fuel as [|fuel IH]; intros point region;
    cbn [GlobalFoldingCommand.fold_all_while];
    destruct (truthy region); cbn [negb]; auto with logs.
  apply logs_bind; [apply logs_get_view|]. intros v.
  apply logs_bind.
  - destruct (region_of_content_of_headline_at_point hl v point);
      [|apply logs_ret].
    apply logs_bind; [now apply logs_view_fold | intros _; apply logs_ret].
  - intros point'. apply logs_bind; [apply logs_get_view|]. intros v'.
    destruct (find_headline hl v' _ _ _ _) as [region' level'].
    apply IH.
Qed.

Lemma logs_global_run fuel :
  logs host is_editor_call (GlobalFoldingCommand.run host hl fuel).
Proof.
  unfold GlobalFoldingCommand.run.
  apply logs_bind.
  - unfold GlobalFoldingCommand.is_global_folded.
    apply logs_bind; [apply logs_get_view|]. intros v.
    destruct (find_headline hl v _ _ _ _) as [[r|] level]; [|apply logs_ret].
    apply logs_is_global_folded_while.
  - intros [|].
    + unfold GlobalFoldingCommand.unfold_all.
      apply logs_bind; [apply logs_get_view|]. intros v.
      apply logs_bind; [now apply logs_view_unfold|]. intros _.
      apply logs_bind; [apply logs_get_view|]. intros v'.
      destruct (sel v'); [apply logs_raise | now apply logs_view_show].
    + unfold GlobalFoldingCommand.fold_all.
      apply logs_bind; [apply logs_get_view|]. intros v.
      destruct (find_headline hl v _ _ _ _) as [[r|] level];
        [|apply logs_raise].
      apply logs_bind.
      * apply logs_weaken with (ok := is_folding);
          [intros [] E; (discriminate E || reflexivity)
          | apply logs_fold_all_while].
      * intros _. unfold GlobalFoldingCommand.adjust_cursors_and_view.
        apply logs_bind; [apply logs_get_view|]. intros v'.
        apply logs_bind; [apply logs_for_sel; intros; apply logs_ret|].
        intros new_sel.
        apply logs_bind; [now apply logs_request|]. intros _.
        apply logs_for_each. intros r'.
        apply logs_bind; [now apply logs_request|].
        intros _. now apply logs_view_show.
Qed.

End Facts.
End FoldingFacts.

(** * Commands that never raise, and commands step by step *)

Section Running.

Lemma never_raises_ret {A} (x : A) : never_raises (ret x).
Proof. intros w e; discriminate. Qed.

Lemma never_raises_out_of_fuel {A} : never_raises (@out_of_fuel A).
Proof. intros w e; discriminate. Qed.

Lemma never_raises_get_view : never_raises get_view.
Proof. intros w e; discriminate. Qed.

Lemma never_raises_request c f : never_raises (request c f).
Proof. intros w e; discriminate. Qed.

Lemma never_raises_emit c : never_raises (emit c).
Proof. intros w e; discriminate. Qed.

Lemma never_raises_bind {A B} (c : Cmd A) (k : A -> Cmd B) :
  never_raises c -> (forall x, never_raises (k x)) -> never_raises (bind c k).
Proof.
  intros Hc Hk w e. unfold bind.
  specialize (Hc w). destruct (c w) as [l w' [x | e' |]];
    cbn [ending] in *.
  - specialize (Hk x w' e). destruct (k x w'); exact Hk.
  - now destruct (Hc e').
  - discriminate.
Qed.

Lemma never_raises_for_each {A} (xs : list A) body :
  (forall x, never_raises (body x)) -> never_raises (for_each xs body).
Proof.
  intros Hb. induction xs as [|x xs IH]; cbn [for_each].
  - apply never_raises_ret.
  - apply never_raises_bind; [apply Hb | intros _; exact IH].
Qed.

Lemma never_raises_for_sel {A} fuel i (body : Region.t -> A -> Cmd A) acc :
  (forall r x, never_raises (body r x)) ->
  never_raises (for_sel fuel i body acc).
Proof.
  intros Hb. revert i acc.
  induction fuel as [|fuel IH]; intros i acc; cbn [for_sel].
  - apply never_raises_out_of_fuel.
  - apply never_raises_bind; [apply never_raises_get_view|]. intros v.
    destruct (nth_error (sel v) i); [|apply never_raises_ret].
    apply never_raises_bind; [apply Hb | intros x; apply IH].
Qed.

(** [c ;; return x] ends as [c] does, with [x] for its value. *)
Lemma ending_then_ret {A B} (c : Cmd A) (x : B) w :
  ending ((c ;; ret x) w)
  = match ending (c w) with
    | Return _ => Return x
    | Raise e => Raise e
    | OutOfFuel => OutOfFuel
    end.
Proof.
  unfold bind, ret. destruct (c w) as [l w' [y | e |]]; reflexivity.
Qed.


(** *** Running one step *)

Lemma bind_get_view {A} (k : View -> Cmd A) w :
  (v <- get_view ;; k v) w = k (view w) w.
Proof.
  unfold bind, get_view. destruct (k (view w) w) as [l w' e]. reflexivity.
Qed.

Lemma bind_request {A} c f (k : unit -> Cmd A) w :
  bind (request c f) k w
  = let r := k tt (mkWorld (f (view w)) (temps w)) in
    mkResult (c :: calls r) (world r) (ending r).
Proof.
  unfold bind, request. destruct (k tt _) as [l w' e]. reflexivity.
Qed.

Lemma bind_result {A B} (c : Cmd A) (k : A -> Cmd B) w :
  bind c k w
  = match ending (c w) with
    | Return x =>
        let r := k x (world (c w)) in
        mkResult (calls (c w) ++ calls r) (world r) (ending r)
    | Raise e => mkResult (calls (c w)) (world (c w)) (Raise e)
    | OutOfFuel => mkResult (calls (c w)) (world (c w)) OutOfFuel
    end.
Proof.
  unfold bind. destruct (c w) as [l w' [x | e |]]; cbn [calls world ending];
    try reflexivity.
  destruct (k x w'); reflexivity.
Qed.

Lemma for_sel_step {A} fuel i (body : Region.t -> A -> Cmd A) acc w :
  for_sel (S fuel) i body acc w
  = match nth_error (sel (view w)) i with
    | None => mkResult [] w (Return acc)
    | Some r => (acc' <- body r acc ;; for_sel fuel (S i) body acc') w
    end.
Proof.
  cbn [for_sel]. rewrite bind_get_view.
  destruct (nth_error (sel (view w)) i); reflexivity.
Qed.

End Running.

Module ToggleFacts.
Section Facts.

Variable host : Host.
Variable hl : Headline.

Lemma never_raises_fold_or_unfold fuel :
  forall from_point level,
    never_raises
      (SmartFoldingCommand.fold_or_unfold_headline_at_point
         host hl fuel from_point level).
Proof.
  induction fuel as [|fuel IH]; intros from_point level;
    cbn [SmartFoldingCommand.fold_or_unfold_headline_at_point].
  - apply never_raises_out_of_fuel.
  - apply never_raises_bind; [apply never_raises_get_view|]. intros v.
    destruct (headline_and_level_at_point hl v from_point) as [? [lv|]];
      [|apply never_raises_ret].
    destruct (is_scope_headline hl v from_point); cbn [negb];
      [|apply never_raises_ret].
    destruct (region_of_content_of_headline_at_point hl v from_point)
      as [content_region|]; [|apply never_raises_ret].
    apply never_raises_bind; [|intros _; apply never_raises_ret].
    destruct (SmartFoldingCommand.is_region_totally_folded
                v (Some content_region)).
    + unfold SmartFoldingCommand.unfold_yet_fold_subheads_with.
      apply never_raises_bind; [apply never_raises_request|]. intros _.
      apply never_raises_bind; [apply never_raises_get_view|]. intros v'.
      destruct (rowcol host v' (Region.a content_region)) as [start_line ?].
      destruct (rowcol host v' (Region.b content_region)) as [end_line ?].
      apply never_raises_for_each. intros i.
      apply never_raises_bind; [apply never_raises_get_view|]. intros v''.
      apply never_raises_bind; [apply IH | intros _; apply never_raises_ret].
    + apply never_raises_request.
Qed.

(** One step of the toggle, by what [headline] answers at the point. *)
Lemma fold_or_unfold_step fuel from_point level w :
  SmartFoldingCommand.fold_or_unfold_headline_at_point
    host hl (S fuel) from_point level w
  = match snd (headline_and_level_at_point hl (view w) from_point) with
    | None => mkResult [] w (Return false)
    | Some lv =>
        if is_scope_headline hl (view w) from_point then
          match region_of_content_of_headline_at_point hl (view w) from_point
          with
          | None => mkResult [] w (Return true)
          | Some content_region =>
              ((if SmartFoldingCommand.is_region_totally_folded
                      (view w) (Some content_region)
                then SmartFoldingCommand.unfold_yet_fold_subheads
                       host hl fuel content_region lv
                else SmartFoldingCommand.fold host content_region) ;;
               ret true) w
          end
        else mkResult [] w (Return false)
    end.
Proof.
  cbn [SmartFoldingCommand.fold_or_unfold_headline_at_point].
  rewrite bind_get_view.
  destruct (headline_and_level_at_point hl (view w) from_point)
    as [? [lv|]]; cbn [snd]; [|reflexivity].
  destruct (is_scope_headline hl (view w) from_point); cbn [negb];
    [|reflexivity].
  destruct (region_of_content_of_headline_at_point hl (view w) from_point);
    reflexivity.
Qed.

(** Off a headline the toggle does nothing and answers [False]. *)
Lemma fold_or_unfold_off_headline fuel from_point level w :
  on_headline hl (view w) from_point = false ->
  SmartFoldingCommand.fold_or_unfold_headline_at_point
    host hl (S fuel) from_point level w
  = mkResult [] w (Return false).
Proof.
  unfold on_headline. intros H. rewrite fold_or_unfold_step.
  destruct (snd (headline_and_level_at_point hl (view w) from_point));
    [now rewrite H | reflexivity].
Qed.

(** On a headline it answers [True], if it answers. *)
Lemma fold_or_unfold_on_headline fuel from_point level w :
  on_headline hl (view w) from_point = true ->
  let r := SmartFoldingCommand.fold_or_unfold_headline_at_point
             host hl fuel from_point level w in
  ending r = Return true \/ ending r = OutOfFuel.
Proof.
  intros H.
  pose proof (never_raises_fold_or_unfold fuel from_point level w) as NR.
  destruct fuel as [|fuel]; [right; reflexivity|].
  revert NR. unfold on_headline in H. rewrite fold_or_unfold_step.
  destruct (snd (headline_and_level_at_point hl (view w) from_point))
    as [lv|]; [|discriminate H].
  rewrite H.
  destruct (region_of_content_of_headline_at_point hl (view w) from_point)
    as [content_region|]; [|intros _; left; reflexivity].
  cbv zeta. rewrite ending_then_ret.
  match goal with
  | |- context [ending ?r] => destruct (ending r) as [x | e |]
  end; intros NR; [left | now destruct (NR e) | right]; reflexivity.
Qed.

(** *** The two loops of [SmartFoldingCommand.run] *)

Lemma replay_folding_keeps v l :
  folding_keeps_headlines host hl ->
  Forall (fun c => is_folding c = true) l ->
  sel (replay host v l) = sel v
  /\ forall pt, on_headline hl (replay host v l) pt = on_headline hl v pt.
Proof.
  intros K F. revert v.
  induction F as [|c l Hc _ IH]; intros v; [split; reflexivity|].
  change (replay host v (c :: l)) with (replay host (apply_call host v c) l).
  destruct (IH (apply_call host v c)) as [S1 O1].
  destruct c; try discriminate Hc; cbn [apply_call] in *;
    destruct (K v r) as (Ks1 & Ks2 & Ko1 & Ko2); split;
    try (intros pt; rewrite O1); congruence.
Qed.

Lemma filter_insert_folding l :
  Forall (fun c => is_folding c = true) l -> filter is_insert l = [].
Proof.
  induction 1 as [|c l Hc _ IH]; [reflexivity|].
  destruct c; try discriminate Hc; exact IH.
Qed.

Lemma match_body_result fuel x acc w :
  let F := SmartFoldingCommand.fold_or_unfold_headline_at_point
             host hl fuel (Region.a x) (ANY_LEVEL hl) in
  calls (SmartFoldingCommand.match_body host hl fuel x acc w) = calls (F w)
  /\ world (SmartFoldingCommand.match_body host hl fuel x acc w)
     = world (F w)
  /\ ending (SmartFoldingCommand.match_body host hl fuel x acc w)
     = match ending (F w) with
       | Return m => Return (if m : bool then true else acc)
       | Raise e => Raise e
       | OutOfFuel => OutOfFuel
       end.
Proof.
  intros F. unfold SmartFoldingCommand.match_body. fold F.
  unfold bind, ret. destruct (F w) as [l w' [m | e |]]; cbn;
    rewrite ?app_nil_r; repeat split.
Qed.

(** The first loop only folds and unfolds, and leaves [ever_matched] false
    only if no selection point, from the [i]-th on, is on a headline. *)
Lemma match_loop fuel n :
  folding_keeps_headlines host hl ->
  forall i acc w,
    let r := for_sel n i (SmartFoldingCommand.match_body host hl fuel) acc w in
    Forall (fun c => is_folding c = true) (calls r)
    /\ (forall e, ending r <> Raise e)
    /\ (ending r = Return false ->
        acc = false
        /\ forall j x, (i <= j)%nat -> nth_error (sel (view w)) j = Some x ->
                       on_headline hl (view w) (Region.a x) = false).
Proof.
  intros K. induction n as [|n IH]; intros i acc w r; subst r.
  - repeat split; try constructor; discriminate.
  - rewrite for_sel_step.
    destruct (nth_error (sel (view w)) i) as [x0|] eqn:Ei.
    + rewrite bind_result.
      destruct (match_body_result fuel x0 acc w) as (-> & -> & ->).
      set (F := SmartFoldingCommand.fold_or_unfold_headline_at_point
                  host hl fuel (Region.a x0) (ANY_LEVEL hl)).
      destruct (FoldingFacts.logs_fold_or_unfold host hl fuel (Region.a x0)
                  (ANY_LEVEL hl) w) as [Fl Vw]. fold F in Fl, Vw.
      pose proof (never_raises_fold_or_unfold fuel (Region.a x0)
                    (ANY_LEVEL hl) w) as NR. fold F in NR.
      pose proof (fold_or_unfold_on_headline fuel (Region.a x0)
                    (ANY_LEVEL hl) w) as On. cbv zeta in On. fold F in On.
      destruct (replay_folding_keeps (view w) _ K Fl) as [Ks Ko].
      rewrite <- Vw in Ks, Ko.
      destruct (ending (F w)) as [m | e |] eqn:Em.
      * cbn zeta.
        destruct (IH (S i) (if m then true else acc) (world (F w)))
          as (F' & NR' & R').
        cbn [calls world ending]. split; [|split].
        -- apply Forall_app. now split.
        -- exact NR'.
        -- intros E. destruct (R' E) as [Ea Hj].
           destruct m; [discriminate Ea|]. split; [exact Ea|].
           intros j x Hij Hx.
           destruct (Nat.eq_dec i j) as [<- | Hne].
           ++ rewrite Ei in Hx. injection Hx as <-.
              destruct (on_headline hl (view w) (Region.a x0)) eqn:Eo;
                [|reflexivity].
              destruct (On eq_refl) as [E1 | E1]; discriminate E1.
           ++ rewrite <- Ko. apply (Hj j); [lia | now rewrite Ks].
      * now destruct (NR e).
      * cbn [calls world ending]. repeat split; try assumption; discriminate.
    + cbn [calls world ending]. split; [constructor | split; [discriminate|]].
      intros E. injection E as ->. split; [reflexivity|].
      intros j x Hij Hx. apply nth_error_None in Ei.
      assert (Hj : nth_error (sel (view w)) j <> None) by congruence.
      apply nth_error_Some in Hj. lia.
Qed.

(** With no selection point on a headline the first loop does nothing. *)
Lemma match_loop_none fuel n :
  forall i w,
    (forall x, In x (sel (view w)) ->
               on_headline hl (view w) (Region.a x) = false) ->
    (List.length (sel (view w)) - i < n)%nat ->
    for_sel n i (SmartFoldingCommand.match_body host hl (S fuel)) false w
    = mkResult [] w (Return false).
Proof.
  induction n as [|n IH]; intros i w Hoff Hn; [lia|].
  rewrite for_sel_step.
  destruct (nth_error (sel (view w)) i) as [x0|] eqn:Ei; [|reflexivity].
  assert (Hi : (i < List.length (sel (view w)))%nat).
  { apply nth_error_Some. congruence. }
  rewrite bind_result.
  destruct (match_body_result (S fuel) x0 false w) as (-> & -> & ->).
  rewrite (fold_or_unfold_off_headline fuel _ _ w
             (Hoff x0 (nth_error_In _ _ Ei))).
  cbn. rewrite (IH (S i) w Hoff) by lia. reflexivity.
Qed.

(** The second loop inserts one tab per selection region. *)
Lemma tab_loop n :
  (forall v pt s,
      List.length (sel (insert host v pt s)) = List.length (sel v)) ->
  forall i w,
    (List.length (sel (view w)) - i < n)%nat ->
    let r := for_sel n i (SmartFoldingCommand.tab_body host) tt w in
    ending r = Return tt
    /\ tabs_at_selections host i (view w) (calls r) (view (world r))
    /\ List.length (filter is_insert (calls r))
       = (List.length (sel (view w)) - i)%nat.
Proof.
  intros L. induction n as [|n IH]; intros i w Hn r; subst r; [lia|].
  rewrite for_sel_step.
  destruct (nth_error (sel (view w)) i) as [x0|] eqn:Ei.
  - assert (Hi : (i < List.length (sel (view w)))%nat).
    { apply nth_error_Some. congruence. }
    rewrite bind_result.
    change (SmartFoldingCommand.tab_body host x0 tt w)
      with (mkResult [ViewInsert (Region.a x0) tab; ViewShow x0]
              (mkWorld (insert host (view w) (Region.a x0) tab) (temps w))
              (Return tt)).
    cbn [calls world ending]. cbn zeta.
    set (w1 := mkWorld (insert host (view w) (Region.a x0) tab) (temps w)).
    destruct (IH (S i) w1) as (E & T & N).
    { subst w1; cbn [view]. rewrite L. lia. }
    cbn [calls world ending]. split; [exact E | split].
    + cbn [app]. eapply tabs_step; [exact Ei | exact T].
    + cbn [app filter is_insert List.length]. rewrite N.
      subst w1; cbn [view]. rewrite L. lia.
  - cbn [calls world ending filter List.length].
    split; [reflexivity | split; [now constructor|]].
    apply nth_error_None in Ei. lia.
Qed.

(** C9: if no selection point is on a headline, [run] inserts a tab at the
    position of every selection region (and does nothing else but show
    it); if some selection point is on a headline, no tab is inserted. *)
Theorem run_inserts_tabs_unless_headline fuel w :
  let v := view w in
  let r := SmartFoldingCommand.run host hl fuel w in
  ((forall x, In x (sel v) -> on_headline hl v (Region.a x) = false) ->
   (forall v' pt s,
       List.length (sel (insert host v' pt s)) = List.length (sel v')) ->
   (List.length (sel v) < fuel)%nat ->
   ending r = Return tt
   /\ tabs_at_selections host 0 v (calls r) (view (world r))
   /\ List.length (filter is_insert (calls r)) = List.length (sel v))
  /\ ((exists x, In x (sel v) /\ on_headline hl v (Region.a x) = true) ->
      folding_keeps_headlines host hl ->
      filter is_insert (calls r) = []).
Proof.
  intros v r; subst v r. unfold SmartFoldingCommand.run. split.
  - intros Hoff L Hn. destruct fuel as [|fuel]; [lia|].
    rewrite bind_result, (match_loop_none fuel (S fuel) 0 w Hoff) by lia.
    cbn [calls world ending negb app]. cbn zeta.
    destruct (tab_loop (S fuel) L 0 w) as (E & T & N); [lia|].
    cbn [calls world ending]. rewrite N, Nat.sub_0_r. repeat split; assumption.
  - intros (x & Hin & Hon) K. rewrite bind_result.
    destruct (match_loop fuel fuel K 0 false w) as (F & NR & R).
    destruct (ending (for_sel fuel 0
                        (SmartFoldingCommand.match_body host hl fuel) false w))
      as [[|] | e |] eqn:E; cbn [calls world ending negb]; cbn zeta.
    + cbn [ret calls]. rewrite app_nil_r. now apply filter_insert_folding.
    + destruct (R eq_refl) as [_ Hj].
      destruct (In_nth_error _ _ Hin) as [j Hx].
      rewrite (Hj j x) in Hon; [discriminate Hon | lia | exact Hx].
    + now apply filter_insert_folding.
    + now apply filter_insert_folding.
Qed.

End Facts.
End ToggleFacts.

(** * Properties of the export command *)

Module PandocFacts.
Import PandocRenderCommand.

Lemma substring_whole (s : string) :
  String.substring 0 (String.length s) s = s.
Proof.
  induction s as [|c s IH]; simpl; [reflexivity | now rewrite IH].
Qed.

(** The contents written by [run] are the whole text of the buffer. *)
Lemma substr_whole (v : View) : substr v (Region.mk 0 (size v)) = text v.
Proof.
  unfold substr, size, Region.begin, Region.end_; simpl.
  rewrite Z.min_l, Z.max_r by lia.
  rewrite Z.sub_0_r, Nat2Z.id. apply substring_whole.
Qed.

Lemma supported_cases (target : string) :
  existsb (String.eqb target) supported_targets = true ->
  target = "html" \/ target = "docx" \/ target = "pdf".
Proof.
  unfold supported_targets; simpl.
  rewrite !orb_true_iff, !String.eqb_eq. intuition discriminate.
Qed.

Lemma supported_In (target : string) :
  existsb (String.eqb target) supported_targets = true <->
  In target supported_targets.
Proof.
  rewrite existsb_exists. split.
  - intros (x & Hx & E). apply String.eqb_eq in E. now subst.
  - intros H. exists target. split; [assumption | apply String.eqb_refl].
Qed.

Lemma unsupported_guard (target : string) :
  ~ In target supported_targets ->
  existsb (String.eqb target) supported_targets = false.
Proof.
  intros H. destruct (existsb _ _) eqn:E; [|reflexivity].
  apply supported_In in E. contradiction.
Qed.

Lemma run_unsupported host sys target openAfter saveResult args w :
  ~ In target supported_targets ->
  run host sys target openAfter saveResult args w
  = mkResult [] w (Raise (unsupported_format target)).
Proof.
  intros H. unfold run. now rewrite (unsupported_guard _ H).
Qed.

Lemma run_supported_not_format host sys target openAfter saveResult args w :
  In target supported_targets ->
  ending (run host sys target openAfter saveResult args w)
  <> Raise (unsupported_format target).
Proof.
  intros H. apply supported_In, supported_cases in H.
  destruct H as [-> | [-> | ->]];
    destruct openAfter, saveResult; run_cases host sys; discriminate.
Qed.

Lemma run_ignores_encoding host sys e target openAfter saveResult args w :
  run (with_encoding host e) sys target openAfter saveResult args w
  = run host sys target openAfter saveResult args w.
Proof. reflexivity. Qed.

(** *** Encoding the text *)

Lemma encode_error_from_ascii s :
  forall pos,
    match encode_error_from s pos with
    | None => is_ascii s = true
    | Some _ => is_ascii s = false
    end.
Proof.
  unfold is_ascii.
  induction s as [|c s IH]; intros pos;
    cbn [encode_error_from list_ascii_of_string forallb]; [reflexivity|].
  destruct (is_ascii_char c); cbn [andb]; [apply IH | reflexivity].
Qed.

Lemma encode_error_ascii s : is_ascii s = true -> encode_error s = None.
Proof.
  intros H. pose proof (encode_error_from_ascii s 0) as E.
  unfold encode_error. destruct (encode_error_from s 0); [|reflexivity].
  congruence.
Qed.

Lemma encode_error_non_ascii s :
  is_ascii s = false -> exists msg, encode_error s = Some msg.
Proof.
  intros H. pose proof (encode_error_from_ascii s 0) as E.
  unfold encode_error. destruct (encode_error_from s 0) as [msg|];
    [now exists msg | congruence].
Qed.

Lemma encode_error_some s msg : encode_error s = Some msg -> is_ascii s = false.
Proof.
  intros H. pose proof (encode_error_from_ascii s 0) as E.
  unfold encode_error in H. now rewrite H in E.
Qed.

(** The three calls every accepted export of an ASCII buffer starts with. *)
Lemma run_prefix host sys target openAfter saveResult args w :
  In target supported_targets ->
  is_ascii (text (view w)) = true ->
  let tmp_md := temp_name sys (temps w) ".md" in
  exists rest,
    calls (run host sys target openAfter saveResult args w)
    = TempFile ".md" tmp_md :: FileWrite tmp_md (text (view w))
        :: FileClose tmp_md :: rest.
Proof.
  intros H Ha tmp_md. subst tmp_md. apply supported_In, supported_cases in H.
  apply encode_error_ascii in Ha. revert Ha.
  rewrite <- (substr_whole (view w)).
  destruct H as [-> | [-> | ->]];
    destruct openAfter, saveResult; run_cases host sys;
    intros Ha; try discriminate Ha; eexists; reflexivity.
Qed.

(** An export of a buffer with a character outside ASCII stops at the
    write. *)
Lemma run_non_ascii host sys target openAfter saveResult args w msg :
  In target supported_targets ->
  encode_error (text (view w)) = Some msg ->
  run host sys target openAfter saveResult args w
  = mkResult [TempFile ".md" (temp_name sys (temps w) ".md")]
      (mkWorld (view w) (S (temps w))) (Raise (UnicodeEncodeError msg)).
Proof.
  intros H Ha. apply supported_In, supported_cases in H. revert Ha.
  rewrite <- (substr_whole (view w)).
  destruct H as [-> | [-> | ->]];
    destruct openAfter, saveResult; run_cases host sys;
    intros Ha; try discriminate Ha; injection Ha as <-; reflexivity.
Qed.

(** C2, as amended: [run] raises its "Format ... currently unsopported"
    exception exactly when [target] is none of "html", "docx" and "pdf"; it
    does so before anything is asked of the system: no temporary file, no
    pandoc.  For the three supported targets that exception is never raised
    (others can be: the buffer may have no file name, the opener may fail). *)
Theorem run_unsupported_format_iff host sys target openAfter saveResult args w :
  let r := run host sys target openAfter saveResult args w in
  (ending r = Raise (unsupported_format target)
   <-> ~ In target supported_targets)
  /\ (~ In target supported_targets -> calls r = [] /\ world r = w)
  /\ (In target supported_targets ->
      ending r <> Raise (unsupported_format target)).
Proof.
  intros r; subst r. split; [split|split].
  - intros E H. now apply (run_supported_not_format host sys target openAfter
                             saveResult args w H).
  - intros H. now rewrite run_unsupported.
  - intros H. now rewrite run_unsupported.
  - apply run_supported_not_format.
Qed.

Lemma run_unsupported_format_iff_witness :
  ~ In "odt" supported_targets
  /\ calls (run (Reference.editor None) (Reference.system "linux") "odt"
              true false [] (Reference.start (Reference.buffer "# a" [0] [])))
     = [].
Proof.
  assert (H : ~ In "odt" supported_targets).
  { simpl. intros [H | [H | [H | []]]]; discriminate H. }
  split; [exact H|].
  exact (proj1 (proj1 (proj2 (run_unsupported_format_iff
           (Reference.editor None) (Reference.system "linux") "odt"
           true false [] (Reference.start (Reference.buffer "# a" [0] []))))
           H)).
Defined.

(** C2 as stated fails: exporting a buffer that has no file name with
    [saveResult] raises although the target is supported. *)
Lemma run_raises_for_supported_target :
  raises (run (Reference.editor None) (Reference.system "linux") "pdf"
            true true [] (Reference.start (Reference.buffer "# a" [0] [])))
  /\ In "pdf" supported_targets.
Proof.
  split.
  - eexists. reflexivity.
  - simpl. tauto.
Qed.

(** C3: the argument list of each target, and the one subprocess call of
    [run_pandoc]: [['pandoc'] + args + [infile, '-o', outfile]]. *)
Theorem pandoc_command_line sys infile outfile args w :
  pandoc_args "pdf" = Some []
  /\ pandoc_args "html" = Some ["-t"; "html5"]
  /\ pandoc_args "docx" = Some ["-t"; "docx"]
  /\ let cmd := (["pandoc"] ++ args ++ [infile; "-o"; outfile])%list in
     let r := run_pandoc sys infile outfile (Some args) w in
     filter is_subprocess (calls r) = [SubprocessCall cmd]
     /\ (forall c, In c (calls r) ->
           c = SubprocessCall cmd \/ exists msg, c = ErrorMessage msg)
     /\ ending r = Return tt
     /\ world r = w.
Proof.
  repeat (split; [reflexivity|]).
  intros cmd r; subst cmd r.
  unfold run_pandoc, subprocess_call, catch, bind, emit, raise, ret.
  cbn.
  destruct (call_error sys _); cbn;
    (split; [reflexivity | split; [|split; reflexivity]]);
    intros c Hc; cbn in Hc; intuition eauto.
Qed.

(** C5 fails on the code.  For a buffer of ASCII characters [run] does what
    the claim says: the whole text is written to a temporary file of suffix
    ".md", every pandoc invocation reads that file, and pandoc is invoked
    unless [saveResult] is set and the buffer has no (or an empty) file
    name.  For a buffer with a character outside ASCII nothing is written and
    pandoc is never called: the write raises [UnicodeEncodeError], as the
    text is not encoded.  The encoding the view reports, which [run] works
    out first, is not used: it changes nothing in either case. *)
Theorem run_exports_ascii_buffers_only host sys target openAfter saveResult
        args w :
  In target supported_targets ->
  let r := run host sys target openAfter saveResult args w in
  let tmp_md := temp_name sys (temps w) ".md" in
  (is_ascii (text (view w)) = true ->
   (exists rest,
       calls r = TempFile ".md" tmp_md :: FileWrite tmp_md (text (view w))
                   :: FileClose tmp_md :: rest)
   /\ (forall cmd, In (SubprocessCall cmd) (calls r) -> hd "" cmd = "pandoc" ->
         exists pargs out,
           pandoc_args target = Some pargs
           /\ cmd = (["pandoc"] ++ pargs ++ [tmp_md; "-o"; out])%list)
   /\ (saveResult = false \/ truthy_name (file_name host) = true ->
         exists pargs out,
           pandoc_args target = Some pargs
           /\ In (SubprocessCall (["pandoc"] ++ pargs ++ [tmp_md; "-o"; out]))
                 (calls r)))
  /\ (is_ascii (text (view w)) = false ->
      (exists msg, ending r = Raise (UnicodeEncodeError msg))
      /\ calls r = [TempFile ".md" tmp_md])
  /\ (forall e,
        run (with_encoding host e) sys target openAfter saveResult args w = r).
Proof.
  intros H r tmp_md.
  split; [|split; [|intros e; apply run_ignores_encoding]].
  - intros Ha. split; [now apply run_prefix|].
    subst r tmp_md. apply supported_In, supported_cases in H.
    apply encode_error_ascii in Ha.
    rewrite <- (substr_whole (view w)) in Ha.
    split; revert Ha.
    + destruct H as [-> | [-> | ->]];
        destruct openAfter, saveResult; run_cases host sys;
        intros Ha; try discriminate Ha;
        intros cmd Hin Hhd; in_cases; cbn in Hhd; try discriminate Hhd;
        eexists _, _; (split; reflexivity).
    + destruct H as [-> | [-> | ->]];
        destruct openAfter, saveResult; run_cases host sys;
        intros Ha; try discriminate Ha;
        intros [Hs | Hs]; try discriminate Hs;
        eexists _, _; (split; [reflexivity | cbn; tauto]).
  - intros Ha. destruct (encode_error_non_ascii _ Ha) as [msg E].
    subst r tmp_md. rewrite (run_non_ascii _ _ _ _ _ _ _ _ H E).
    split; [now exists msg | reflexivity].
Qed.


(** C10, as amended: with [saveResult] and no file name, [run] raises
    before pandoc is called and before any output file is made, whatever the
    target and the buffer, and the exception is never the one of the guard on
    the file name.  For a supported target and a buffer of ASCII characters
    the raise is that of [os.path.splitext] on the missing name, after the
    temporary ".md" file has been written and closed. *)
Theorem run_without_file_name host sys target openAfter args w :
  file_name host = None ->
  let r := run host sys target openAfter true args w in
  let tmp_md := temp_name sys (temps w) ".md" in
  raises r
  /\ filter launches (calls r) = []
  /\ (forall c, In c (calls r) -> is_temp_file c = true ->
                c = TempFile ".md" tmp_md)
  /\ ending r <> Raise please_save
  /\ (In target supported_targets -> is_ascii (text (view w)) = true ->
      ending r
      = Raise (AttributeError "'NoneType' object has no attribute 'rfind'")
      /\ calls r = [TempFile ".md" tmp_md; FileWrite tmp_md (text (view w));
                    FileClose tmp_md]).
Proof.
  intros Hn r tmp_md; subst r tmp_md.
  destruct (in_dec string_dec target supported_targets) as [H | H].
  - pose proof H as H'. apply supported_In, supported_cases in H'.
    destruct (encode_error (text (view w))) as [e|] eqn:E.
    + rewrite (run_non_ascii _ _ _ _ _ _ _ _ H E). cbn [calls ending].
      apply encode_error_some in E.
      split; [eexists; reflexivity|]. split; [reflexivity|].
      split; [intros c [<- | []] _; reflexivity|].
      split; [discriminate|]. intros _ Ha. congruence.
    + revert E. rewrite <- (substr_whole (view w)).
      destruct H' as [-> | [-> | ->]];
        unfold run, splitext0, file_write; rewrite Hn; destruct openAfter;
        cbn; intros ->; cbn;
        (split; [eexists; reflexivity|]); (split; [reflexivity|]);
        (split;
         [intros c Hc Ht;
          repeat (destruct Hc as [<- | Hc];
                  [first [reflexivity | discriminate Ht]|]);
          destruct Hc|]);
        (split; [discriminate|]); intros _ _; split; reflexivity.
  - rewrite run_unsupported by assumption. cbn [calls ending].
    split; [eexists; reflexivity|]. split; [reflexivity|].
    split; [intros c []|]. split; [discriminate|]. intros H'. contradiction.
Qed.

Lemma run_without_file_name_witness :
  ending (run (Reference.editor None) (Reference.system "linux") "docx"
            true true [] (Reference.start (Reference.buffer "# a" [0] [])))
  = Raise (AttributeError "'NoneType' object has no attribute 'rfind'").
Proof.
  refine (proj1 (proj2 (proj2 (proj2 (proj2 (run_without_file_name
            (Reference.editor None) (Reference.system "linux") "docx" true []
            (Reference.start (Reference.buffer "# a" [0] [])) _)))) _ _)).
  - reflexivity.
  - simpl. tauto.
  - reflexivity.
Defined.

(** C10 as stated fails: the raise need not come from the output name.  For
    a target that is not supported it is the exception of the first line,
    before any file; for a buffer with a character outside ASCII it is the
    [UnicodeEncodeError] of the write. *)
Lemma run_raises_before_the_output_name :
  run (Reference.editor None) (Reference.system "linux") "rtf"
      true true [] (Reference.start (Reference.buffer "# a" [0] []))
  = mkResult [] (Reference.start (Reference.buffer "# a" [0] []))
      (Raise (unsupported_format "rtf"))
  /\ run (Reference.editor None) (Reference.system "linux") "pdf"
         true true [] (Worlds.world_of Worlds.cafe [0] [])
     = mkResult [TempFile ".md" "/tmp/tmp0.md"]
         (mkWorld (view (Worlds.world_of Worlds.cafe [0] [])) 1)
         (Raise Worlds.cafe_error).
Proof. split; reflexivity. Qed.

(** The guard [if not self.view.file_name()] fires for an empty name only. *)
Lemma please_save_only_for_empty_name host sys target openAfter saveResult
      args w :
  ending (run host sys target openAfter saveResult args w) = Raise please_save
  -> saveResult = true /\ file_name host = Some "".
Proof.
  destruct (in_dec string_dec target supported_targets) as [H | H].
  - apply supported_In, supported_cases in H.
    destruct H as [-> | [-> | ->]];
      destruct openAfter, saveResult; run_cases host sys;
      intros E; try discriminate E; split; reflexivity.
  - rewrite run_unsupported by assumption. discriminate.
Qed.


End PandocFacts.

Module ScanFacts.
Section Facts.

Variable host : Host.
Variable hl : Headline.

Lemma is_global_folded_while_done fuel point w :
  GlobalFoldingCommand.is_global_folded_while hl fuel point None w
  = mkResult [] w (Return true).
Proof. destruct fuel; reflexivity. Qed.

Lemma fold_all_while_done fuel point w :
  GlobalFoldingCommand.fold_all_while host hl fuel point None w
  = mkResult [] w (Return tt).
Proof. destruct fuel; reflexivity. Qed.

(** One turn of the loop of [is_global_folded]. *)
Lemma is_global_folded_while_step fuel point r0 w :
  GlobalFoldingCommand.is_global_folded_while hl (S fuel) point (Some r0) w
  = let v := view w in
    let region := region_of_content_of_headline_at_point hl v point in
    let point' := match region with Some r => Region.b r | None => point end in
    if SmartFoldingCommand.is_region_totally_folded v region then
      match find_headline hl v point' (ANY_LEVEL hl) true (Some true) with
      | (Some r, _) =>
          GlobalFoldingCommand.is_global_folded_while hl fuel (Region.a r)
            (Some r) w
      | (None, _) => mkResult [] w (Return true)
      end
    else mkResult [] w (Return false).
Proof.
  cbn [GlobalFoldingCommand.is_global_folded_while truthy negb].
  rewrite bind_get_view. cbn zeta.
  destruct (SmartFoldingCommand.is_region_totally_folded _ _); cbn [negb];
    [|reflexivity].
  destruct (find_headline hl _ _ _ _ _) as [[r|] lv]; [reflexivity|].
  apply is_global_folded_while_done.
Qed.

(** One turn of the loop of [fold_all]. *)
Lemma fold_all_while_step fuel point r0 w :
  GlobalFoldingCommand.fold_all_while host hl (S fuel) point (Some r0) w
  = match region_of_content_of_headline_at_point hl (view w) point with
    | Some r =>
        let w1 := mkWorld (fold host (view w) r) (temps w) in
        let res :=
          match find_headline hl (view w1) (Region.b r) (ANY_LEVEL hl) true
                              (Some true) with
          | (Some r', _) =>
              GlobalFoldingCommand.fold_all_while host hl fuel (Region.a r')
                (Some r') w1
          | (None, _) => mkResult [] w1 (Return tt)
          end in
        mkResult (ViewFold r :: calls res) (world res) (ending res)
    | None =>
        match find_headline hl (view w) point (ANY_LEVEL hl) true
                            (Some true) with
        | (Some r', _) =>
            GlobalFoldingCommand.fold_all_while host hl fuel (Region.a r')
              (Some r') w
        | (None, _) => mkResult [] w (Return tt)
        end
    end.
Proof.
  cbn [GlobalFoldingCommand.fold_all_while truthy negb].
  rewrite bind_get_view.
  destruct (region_of_content_of_headline_at_point hl (view w) point)
    as [r|].
  - rewrite bind_result. cbn [ending calls world].
    unfold SmartFoldingCommand.view_fold.
    rewrite bind_request. cbn [ret calls world ending].
    cbn zeta. rewrite bind_get_view. cbn [view app].
    destruct (find_headline hl _ _ _ _ _) as [[r'|] lv]; [reflexivity|].
    now rewrite fold_all_while_done.
  - rewrite bind_result. cbn [ret ending calls world app].
    cbn zeta. rewrite bind_get_view.
    destruct (find_headline hl _ _ _ _ _) as [[r'|] lv].
    + now destruct (GlobalFoldingCommand.fold_all_while _ _ _ _ _ _).
    + now rewrite fold_all_while_done.
Qed.

Hypothesis forward : scans_forward hl.

Lemma is_global_folded_while_returns fuel :
  forall point region w,
    (Z.to_nat (size (view w) - point) < fuel)%nat ->
    returns (GlobalFoldingCommand.is_global_folded_while hl fuel point
               region w).
Proof.
  destruct forward as [Fc Fn].
  induction fuel as [|fuel IH]; intros point region w Hm; [lia|].
  destruct region as [r0|];
    [|rewrite is_global_folded_while_done; now eexists].
  rewrite is_global_folded_while_step. cbn zeta.
  destruct (SmartFoldingCommand.is_region_totally_folded _ _);
    [|now eexists].
  destruct (find_headline hl _ _ _ _ _) as [[r|] lv] eqn:Ef; [|now eexists].
  apply Fn in Ef. apply IH.
  destruct (region_of_content_of_headline_at_point hl (view w) point)
    as [rc|] eqn:Ec; [apply Fc in Ec|]; lia.
Qed.

Hypothesis fold_keeps_size : forall v r, size (fold host v r) = size v.

Lemma fold_all_while_returns fuel :
  forall point region w,
    (Z.to_nat (size (view w) - point) < fuel)%nat ->
    returns (GlobalFoldingCommand.fold_all_while host hl fuel point
               region w).
Proof.
  destruct forward as [Fc Fn].
  induction fuel as [|fuel IH]; intros point region w Hm; [lia|].
  destruct region as [r0|];
    [|rewrite fold_all_while_done; now eexists].
  rewrite fold_all_while_step.
  destruct (region_of_content_of_headline_at_point hl (view w) point)
    as [rc|] eqn:Ec.
  - apply Fc in Ec. cbn zeta. unfold returns. cbn [ending].
    set (w1 := mkWorld (fold host (view w) rc) (temps w)).
    destruct (find_headline hl _ _ _ _ _) as [[r|] lv] eqn:Ef;
      [|now eexists].
    apply Fn in Ef. apply IH. subst w1. cbn [view] in *.
    rewrite fold_keeps_size in *. lia.
  - destruct (find_headline hl _ _ _ _ _) as [[r|] lv] eqn:Ef;
      [|now eexists].
    apply Fn in Ef. apply IH. lia.
Qed.

End Facts.

(** C7: the headline scans of [is_global_folded] and [fold_all] terminate:
  as each turn moves the search point forward, to the end of the content
  region and then to the next headline past it, a number of turns bounded
  by the distance from the point to the end of the buffer is enough. *)
Theorem headline_scans_terminate host hl :
scans_forward hl ->
(forall v r, size (fold host v r) = size v) ->
forall w,
  (forall fuel point region,
      (Z.to_nat (size (view w) - point) < fuel)%nat ->
      returns (GlobalFoldingCommand.is_global_folded_while hl fuel point
                 region w)
      /\ returns (GlobalFoldingCommand.fold_all_while host hl fuel point
                    region w))
  /\ (exists enough, forall fuel,
         (enough <= fuel)%nat ->
         returns (GlobalFoldingCommand.is_global_folded hl fuel w)).
Proof.
intros Fw Fs w. split.
- intros fuel point region Hm. split.
  + now apply is_global_folded_while_returns.
  + now apply fold_all_while_returns.
- unfold GlobalFoldingCommand.is_global_folded.
  destruct (find_headline hl (view w) 0 (ANY_LEVEL hl) true None)
    as [[r|] lv] eqn:Ef.
  + exists (S (Z.to_nat (size (view w) - Region.a r))). intros fuel Hf.
    rewrite bind_get_view, Ef.
    apply is_global_folded_while_returns; [assumption | lia].
  + exists O. intros fuel _. rewrite bind_get_view, Ef.
    now eexists.
Qed.

End ScanFacts.

(** * The reference editor and [headline] module meet the assumptions *)

Module ReferenceFacts.

Lemma insert_keeps_selections file v pt s :
  List.length (sel (insert (Reference.editor file) v pt s))
  = List.length (sel v).
Proof. cbn. apply length_map. Qed.

Lemma fold_keeps_size file v r :
  size (fold (Reference.editor file) v r) = size v.
Proof.
  cbn. unfold Reference.fold. destruct (_ || _); reflexivity.
Qed.

Lemma folding_keeps file :
  folding_keeps_headlines (Reference.editor file) Reference.headline.
Proof.
  intros v r. cbn. unfold Reference.fold.
  destruct (_ || _); repeat split.
Qed.

(** Every line starts inside the buffer. *)
Lemma lines_from_bound s :
  forall pos start cur l,
    In l (Reference.lines_from s pos start cur) -> start <= pos ->
    start <= fst l <= pos + Z.of_nat (String.length s).
Proof.
  induction s as [|c s IH]; intros pos start cur l Hin Hle; cbn in *.
  - destruct Hin as [<- | []]. cbn. lia.
  - destruct (Reference.is_newline c).
    + destruct Hin as [<- | Hin]; [cbn; lia|].
      apply IH in Hin; lia.
    + apply IH in Hin; lia.
Qed.

Lemma headline_in_buffer v h :
  In h (Reference.headlines v) -> 0 <= fst h <= size v.
Proof.
  unfold Reference.headlines. rewrite in_flat_map. intros (l & Hl & Hh).
  apply lines_from_bound in Hl; [|lia].
  destruct (Reference.level_of_line (snd l)); [|destruct Hh].
  destruct Hh as [<- | []]. cbn. unfold size. lia.
Qed.

Lemma scans : scans_forward Reference.headline.
Proof.
  split.
  - intros v pt r. cbn. unfold Reference.region_of_content_of_headline_at_point.
    destruct (Reference.headline_and_level_at_point v pt) as [? [lv|]];
      [|discriminate].
    destruct (find (fun l => pt <? fst l) (Reference.lines v)) as [l|] eqn:El;
      [|discriminate].
    apply find_some in El. destruct El as [_ El]. apply Z.ltb_lt in El.
    match goal with
    | |- (if ?c <? ?e then _ else _) = _ -> _ =>
        destruct (Z.ltb_spec c e) as [Hlt|]; [|discriminate]
    end.
    intros E. injection E as <-. cbn. lia.
  - intros v pt r lv. cbn. unfold Reference.find_headline.
    destruct (find _ (Reference.headlines v)) as [h|] eqn:Eh; [|discriminate].
    apply find_some in Eh. destruct Eh as [Hin Hp].
    apply andb_prop in Hp. destruct Hp as [Hp _]. apply Z.ltb_lt in Hp.
    apply headline_in_buffer in Hin.
    intros E. injection E as <- _. cbn. lia.
Qed.

End ReferenceFacts.

(** * The commands and the entities of the editor *)

Module FrameFacts.

Lemma logs_pandoc_run host sys target openAfter saveResult args :
  logs host system_call
       (PandocRenderCommand.run host sys target openAfter saveResult args).
Proof.
  assert (Hemit : forall c,
             system_call c = true -> logs host system_call (emit c)).
  { intros c Hc. apply logs_emit; [exact Hc|].
    intros v. destruct c; try discriminate Hc; reflexivity. }
  assert (Htmp : forall suffix,
             logs host system_call
                  (PandocRenderCommand.NamedTemporaryFile sys suffix)).
  { intros suffix w. split; cbn; [repeat constructor | reflexivity]. }
  assert (Hcall : forall cmd,
             logs host system_call
                  (PandocRenderCommand.subprocess_call sys cmd)).
  { intros cmd. unfold PandocRenderCommand.subprocess_call.
    apply logs_bind; [now apply Hemit|]. intros _.
    destruct (call_error sys cmd); [apply logs_raise | apply logs_ret]. }
  assert (Hstart : forall path,
             logs host system_call (PandocRenderCommand.os_startfile sys path)).
  { intros path. unfold PandocRenderCommand.os_startfile.
    apply logs_bind; [now apply Hemit|]. intros _.
    destruct (startfile_error sys path); [apply logs_raise | apply logs_ret]. }
  assert (Htab : forall url,
             logs host system_call (PandocRenderCommand.open_new_tab sys url)).
  { intros url. unfold PandocRenderCommand.open_new_tab.
    apply logs_bind; [now apply Hemit|]. intros _.
    destruct (browser_error sys url); [apply logs_raise | apply logs_ret]. }
  unfold PandocRenderCommand.run.
  destruct (negb _); [apply logs_raise|]. cbn zeta.
  apply logs_bind; [apply logs_get_view|]. intros v.
  apply logs_bind; [apply Htmp|]. intros tmp_md.
  apply logs_bind.
  { unfold PandocRenderCommand.file_write.
    destruct (encode_error _); [apply logs_raise | now apply Hemit]. }
  intros _.
  apply logs_bind; [now apply Hemit|]. intros _.
  apply logs_bind.
  - destruct saveResult.
    + apply logs_bind.
      * unfold PandocRenderCommand.splitext0.
        destruct (file_name host); [apply logs_ret | apply logs_raise].
      * intros root. destruct (negb _); [apply logs_raise | apply logs_ret].
    + apply logs_bind; [apply Htmp|]. intros output.
      apply logs_bind; [now apply Hemit | intros _; apply logs_ret].
  - intros output_name. apply logs_bind.
    + unfold PandocRenderCommand.run_pandoc.
      destruct (PandocRenderCommand.pandoc_args target); [|apply logs_raise].
      apply logs_catch; [apply Hcall | intros e; now apply Hemit].
    + intros _. destruct openAfter; [|apply logs_ret].
      unfold PandocRenderCommand.open_result.
      repeat match goal with
             | |- logs _ _ (if ?c then _ else _) => destruct c
             end; try apply Hcall; try apply Hstart; try apply Htab;
        apply logs_ret.
Qed.


(** C6: the export command leaves the text, the selection and the folded
    regions as they are: nothing it asks is asked of the editor.  The folding
    commands ask the editor only; the view they leave is the one the editor
    makes of their [insert], [fold], [unfold] and [sel()] calls, in order. *)
Theorem entities_change_through_host_calls :
  (forall host sys target openAfter saveResult args w,
      let r := PandocRenderCommand.run host sys target openAfter saveResult
                 args w in
      view (world r) = view w
      /\ Forall (fun c => is_editor_call c = false) (calls r))
  /\ (forall host hl fuel w,
         let r := SmartFoldingCommand.run host hl fuel w in
         Forall (fun c => is_editor_call c = true) (calls r)
         /\ view (world r)
            = replay host (view w) (filter is_mutator (calls r)))
  /\ (forall host hl fuel w,
         let r := GlobalFoldingCommand.run host hl fuel w in
         Forall (fun c => is_editor_call c = true) (calls r)
         /\ view (world r)
            = replay host (view w) (filter is_mutator (calls r))).
Proof.
  split; [|split].
  - intros host sys target openAfter saveResult args w r.
    destruct (logs_pandoc_run host sys target openAfter saveResult args w)
      as [F V]. fold r in F, V.
    assert (F' : Forall (fun c => is_editor_call c = false) (calls r)).
    { eapply Forall_impl; [|exact F]. intros c. unfold system_call.
      now destruct (is_editor_call c). }
    split; [|exact F']. rewrite V. now apply replay_system_calls.
  - intros host hl fuel w r.
    destruct (FoldingFacts.logs_smart_run host hl fuel w) as [F V].
    split; [exact F | now rewrite replay_mutators].
  - intros host hl fuel w r.
    destruct (FoldingFacts.logs_global_run host hl fuel w) as [F V].
    split; [exact F | now rewrite replay_mutators].
Qed.


End FrameFacts.

Module ExampleFacts.
Import Examples.

(** The content regions of the three headlines of [Reference.outline]. *)
Lemma outline_contents :
  let v := Reference.buffer Reference.outline [] [] in
  Reference.region_of_content_of_headline_at_point v 0
  = Some Reference.H1_content
  /\ Reference.region_of_content_of_headline_at_point v 5
     = Some Reference.S1_content
  /\ Reference.region_of_content_of_headline_at_point v 11
     = Some Reference.SS_content
  /\ Reference.region_of_content_of_headline_at_point v 18 = None.
Proof. repeat split. Qed.

(** C1 fails on the code: in [Reference.outline] the subheadline S1 is folded
    ([fold_S1]), then H1 around it ([fold_H1]).  Unfolding H1 then leaves S1
    unfolded: the walk over the lines of H1's content folds S1, finds the
    content of SS inside that fold, and unfolds it again. *)
Theorem unfolding_forgets_the_folded_subheadline :
  let fold_S1 := SmartFoldingCommand.run editor Reference.headline 10
                   (at_cursor 5 []) in
  let fold_H1 := SmartFoldingCommand.run editor Reference.headline 10
                   (at_cursor 0 (folded_regions (view (world fold_S1)))) in
  let unfold_H1 := SmartFoldingCommand.run editor Reference.headline 10
                     (world fold_H1) in
  calls fold_S1 = [ViewFold Reference.S1_content]
  /\ calls fold_H1 = [ViewFold Reference.H1_content]
  /\ SmartFoldingCommand.is_region_totally_folded
       (view (world fold_H1)) (Some Reference.S1_content) = true
  /\ SmartFoldingCommand.is_region_totally_folded
       (view (world fold_H1)) (Some Reference.H1_content) = true
  /\ ending unfold_H1 = Return tt
  /\ calls unfold_H1 = [ViewUnfold Reference.H1_content;
                        ViewFold Reference.S1_content;
                        ViewUnfold Reference.SS_content]
  /\ SmartFoldingCommand.is_region_totally_folded
       (view (world unfold_H1)) (Some Reference.S1_content) = false.
Proof. vm_compute. repeat split. Qed.

(** Nor is an unfolded subheadline left unfolded: in [flat_outline], with S1
    folded and S2 not when H1 is folded, unfolding H1 folds both. *)
Lemma unfolding_folds_every_subheadline :
  let unfold_H1 :=
    SmartFoldingCommand.run editor Reference.headline 10
      (flat_at_cursor 0 [Region.mk 11 12; Region.mk 5 20]) in
  ending unfold_H1 = Return tt
  /\ calls unfold_H1 = [ViewUnfold (Region.mk 5 20);
                        ViewFold (Region.mk 11 12);
                        ViewFold (Region.mk 19 20)].
Proof. vm_compute. repeat split. Qed.

(** The same with more fuel: the result does not depend on the bound. *)
Lemma unfolding_forgets_with_more_fuel :
  folded_regions
    (view (world (SmartFoldingCommand.run editor Reference.headline 50
                    (at_cursor 0 [Reference.S1_content;
                                  Reference.H1_content]))))
  = [].
Proof. vm_compute. reflexivity. Qed.

Lemma run_inserts_tabs_unless_headline_witness :
  ending (SmartFoldingCommand.run editor Reference.headline 5
            (Reference.start
               (Reference.buffer Reference.outline [19; 20] [])))
  = Return tt
  /\ filter is_insert
       (calls (SmartFoldingCommand.run editor Reference.headline 5
                 (at_cursor 0 [])))
     = [].
Proof.
  split.
  - refine (proj1 (proj1
              (ToggleFacts.run_inserts_tabs_unless_headline
                 editor Reference.headline 5
                 (Reference.start
                    (Reference.buffer Reference.outline [19; 20] [])))
              _ _ _)).
    + intros x [<- | [<- | []]]; reflexivity.
    + intros v' pt s. apply ReferenceFacts.insert_keeps_selections.
    + simpl. lia.
  - refine (proj2
              (ToggleFacts.run_inserts_tabs_unless_headline
                 editor Reference.headline 5 (at_cursor 0 [])) _ _).
    + exists (Region.mk 0 0). split; [left; reflexivity | reflexivity].
    + apply ReferenceFacts.folding_keeps.
Defined.

Lemma headline_scans_terminate_witness :
  exists enough, forall fuel,
      (enough <= fuel)%nat ->
      returns (GlobalFoldingCommand.is_global_folded Reference.headline fuel
                 (at_cursor 0 [])).
Proof.
  exact (proj2 (ScanFacts.headline_scans_terminate editor Reference.headline
                  ReferenceFacts.scans (ReferenceFacts.fold_keeps_size None)
                  (at_cursor 0 []))).
Defined.

End ExampleFacts.

(** * More on the export command *)

Module ExportFacts.
Import PandocRenderCommand.

Lemma pandoc_args_cases target pargs :
  pandoc_args target = Some pargs ->
  (target = "pdf" /\ pargs = [])
  \/ (target = "html" /\ pargs = ["-t"; "html5"])
  \/ (target = "docx" /\ pargs = ["-t"; "docx"]).
Proof.
  unfold pandoc_args.
  destruct (String.eqb_spec target "pdf");
    [intros H; injection H as <-; now left|].
  destruct (String.eqb_spec target "html");
    [intros H; injection H as <-; now right; left|].
  destruct (String.eqb_spec target "docx");
    [intros H; injection H as <-; now right; right|].
  discriminate.
Qed.

(** X1: an export of an ASCII buffer that is not saved makes and closes both
    temporary files before it calls pandoc: the ".md" file with the whole
    buffer and an empty output file of suffix "." + target.  The command line
    holds pandoc, the arguments of the target, the input, "-o" and the
    output, and nothing of [additionalArguments].  If pandoc cannot be
    started the error is shown and the run goes on: the result is still
    opened when [openAfter] is set. *)
Theorem run_exports_to_a_temporary_file host sys target openAfter args w pargs :
  pandoc_args target = Some pargs ->
  is_ascii (text (view w)) = true ->
  let r := run host sys target openAfter false args w in
  let tmp_md := temp_name sys (temps w) ".md" in
  let output := temp_name sys (S (temps w)) ("." ++ target) in
  let cmd := (["pandoc"] ++ pargs ++ [tmp_md; "-o"; output])%list in
  let opened := open_result sys output target
                  (mkWorld (view w) (S (S (temps w)))) in
  calls r
  = ([TempFile ".md" tmp_md; FileWrite tmp_md (text (view w));
      FileClose tmp_md; TempFile ("." ++ target) output; FileClose output;
      SubprocessCall cmd]
     ++ pandoc_report sys cmd
     ++ (if openAfter then calls opened else []))%list
  /\ ending r = (if openAfter then ending opened else Return tt).
Proof.
  intros Hp Ha r tmp_md output cmd opened; subst r tmp_md output cmd opened.
  apply PandocFacts.encode_error_ascii in Ha. revert Ha.
  rewrite <- (PandocFacts.substr_whole (view w)). unfold pandoc_report.
  destruct (pandoc_args_cases _ _ Hp) as [[-> ->] | [[-> ->] | [-> ->]]];
    destruct openAfter; run_cases host sys;
    intros Ha; try discriminate Ha; split; reflexivity.
Qed.

(** X2: an export of an ASCII buffer that is saved, from a buffer with a
    file name, writes to the file name without its extension plus
    "." + target, and makes no temporary file but the ".md" one. *)
Theorem run_saves_beside_the_buffer host sys target openAfter args w pargs
        c name :
  pandoc_args target = Some pargs ->
  is_ascii (text (view w)) = true ->
  file_name host = Some (String c name) ->
  let r := run host sys target openAfter true args w in
  let tmp_md := temp_name sys (temps w) ".md" in
  let output := splitext_root sys (String c name) ++ "." ++ target in
  let cmd := (["pandoc"] ++ pargs ++ [tmp_md; "-o"; output])%list in
  let opened := open_result sys output target
                  (mkWorld (view w) (S (temps w))) in
  calls r
  = ([TempFile ".md" tmp_md; FileWrite tmp_md (text (view w));
      FileClose tmp_md; SubprocessCall cmd]
     ++ pandoc_report sys cmd
     ++ (if openAfter then calls opened else []))%list
  /\ ending r = (if openAfter then ending opened else Return tt)
  /\ filter is_temp_file (calls r) = [TempFile ".md" tmp_md].
Proof.
  intros Hp Ha Hf r tmp_md output cmd opened;
    subst r tmp_md output cmd opened.
  apply PandocFacts.encode_error_ascii in Ha. revert Ha.
  rewrite <- (PandocFacts.substr_whole (view w)). unfold pandoc_report.
  destruct (pandoc_args_cases _ _ Hp) as [[-> ->] | [[-> ->] | [-> ->]]];
    destruct openAfter;
    unfold run, splitext0; rewrite Hf; run_cases host sys;
    intros Ha; try discriminate Ha; repeat split; reflexivity.
Qed.

(** X3: for a supported target [run] raises in these cases only: the buffer
    has a character outside ASCII (the write raises); the result is to be
    saved and the buffer has no file name, or an empty one; the result is to
    be opened and the browser, [os.startfile] on Windows, or the opener of
    OS X or Linux raises.  A pandoc that cannot be started raises nothing. *)
Theorem run_raises_only host sys target openAfter saveResult args w e :
  In target supported_targets ->
  ending (run host sys target openAfter saveResult args w) = Raise e ->
  (is_ascii (text (view w)) = false
   /\ exists msg, encode_error (text (view w)) = Some msg
                  /\ e = UnicodeEncodeError msg)
  \/ (saveResult = true /\ file_name host = None
      /\ e = AttributeError "'NoneType' object has no attribute 'rfind'")
  \/ (saveResult = true /\ file_name host = Some "" /\ e = please_save)
  \/ (openAfter = true /\ target = "html"
      /\ exists outfile msg,
          browser_error sys outfile = Some msg /\ e = WebbrowserError msg)
  \/ (openAfter = true /\ target <> "html" /\ platform sys = "windows"
      /\ exists outfile msg,
          startfile_error sys outfile = Some msg /\ e = WindowsError msg)
  \/ (openAfter = true /\ target <> "html"
      /\ exists opener outfile msg,
          ((platform sys = "osx" /\ opener = "open")
           \/ (platform sys = "linux" /\ opener = "xdg-open"))
          /\ call_error sys [opener; outfile] = Some msg
          /\ e = OSError msg).
Proof.
  intros H. apply PandocFacts.supported_In, PandocFacts.supported_cases in H.
  destruct (encode_error (text (view w))) as [msg|] eqn:E.
  - assert (In target supported_targets) as H'.
    { destruct H as [-> | [-> | ->]]; simpl; tauto. }
    rewrite (PandocFacts.run_non_ascii _ _ _ _ _ _ _ _ H' E). cbn [ending].
    intros X. injection X as <-. left.
    split; [now apply PandocFacts.encode_error_some in E|].
    now exists msg.
  - revert E. rewrite <- (PandocFacts.substr_whole (view w)).
    destruct H as [-> | [-> | ->]];
      destruct openAfter, saveResult; run_cases_eq host sys;
      intros Ea; try discriminate Ea;
      intros E; try discriminate E; injection E as <-;
      repeat match goal with
        | H : String.eqb _ _ = true |- _ => apply String.eqb_eq in H
        end;
      right;
      first [ left; repeat split; reflexivity
            | right; left; repeat split; reflexivity
            | right; right; left; split; [reflexivity|];
              split; [reflexivity|]; eexists _, _;
              split; [eassumption | reflexivity]
            | right; right; right; left; split; [reflexivity|];
              split; [discriminate|]; split; [assumption|]; eexists _, _;
              split; [eassumption | reflexivity]
            | right; right; right; right;
              split; [reflexivity | split; [discriminate|]];
              eexists _, _, _; split;
              [ first [left; split; [eassumption | reflexivity]
                      | right; split; [eassumption | reflexivity]]
              | split; [eassumption | reflexivity] ] ].
Qed.

(** X4: on a platform that is none of "windows", "osx" and "linux", an
    export to anything but html opens nothing: [openAfter] makes no
    difference, and no error is reported. *)
Theorem run_opens_nothing_on_an_unknown_platform host sys target saveResult
        args w :
  known_platform sys = false ->
  target <> "html" ->
  run host sys target true saveResult args w
  = run host sys target false saveResult args w.
Proof.
  unfold known_platform. intros Hk Hn.
  apply orb_false_iff in Hk. destruct Hk as [Hk Hl].
  apply orb_false_iff in Hk. destruct Hk as [Hw Ho].
  destruct (in_dec string_dec target supported_targets) as [H | H].
  - apply PandocFacts.supported_In, PandocFacts.supported_cases in H.
    destruct H as [-> | [-> | ->]]; [now destruct Hn| |];
      destruct saveResult;
      unfold run, run_pandoc, open_result, subprocess_call, splitext0,
        file_write, NamedTemporaryFile, catch, bind, emit, raise, ret,
        get_view; simpl;
      rewrite Hw, Ho, Hl;
      repeat match goal with
        | |- context [encode_error ?s] => destruct (encode_error s); simpl
        | |- context [file_name host] =>
            destruct (file_name host) as [[|? ?]|]; simpl
        | |- context [call_error sys ?c] => destruct (call_error sys c); simpl
        end; rewrite ?app_nil_r; reflexivity.
  - now rewrite !PandocFacts.run_unsupported.
Qed.

End ExportFacts.

(** * More on the folding commands *)

Module RegionFacts.

Lemma contains_trans r x y :
  Region.contains r x = true -> Region.contains x y = true ->
  Region.contains r y = true.
Proof.
  unfold Region.contains. rewrite !andb_true_iff, !Z.leb_le. lia.
Qed.

(** An empty region contains empty regions only. *)
Lemma contains_empty x y :
  Region.a x = Region.b x -> Region.contains x y = true ->
  Region.a y = Region.b y.
Proof.
  unfold Region.contains, Region.begin, Region.end_.
  rewrite andb_true_iff, !Z.leb_le. lia.
Qed.

(** X5: [is_region_totally_folded] goes down to subregions: a region that
    lies inside a totally folded region is totally folded too, the empty
    regions (which the code takes for folded) included. *)
Theorem totally_folded_inside v x y :
  SmartFoldingCommand.is_region_totally_folded v (Some x) = true ->
  Region.contains x y = true ->
  SmartFoldingCommand.is_region_totally_folded v (Some y) = true.
Proof.
  unfold SmartFoldingCommand.is_region_totally_folded. intros Hx Hxy.
  destruct (Z.eqb_spec (Region.a y) (Region.b y)) as [|Hy]; [reflexivity|].
  destruct (Z.eqb_spec (Region.a x) (Region.b x)) as [Ex|_].
  - now destruct Hy; apply (contains_empty x y).
  - apply existsb_exists in Hx. destruct Hx as (f & Hf & Hfx).
    apply existsb_exists. exists f. split; [exact Hf|].
    now apply (contains_trans f x y).
Qed.

End RegionFacts.

Module TabFacts.
Section Facts.

Variable host : Host.
Variable hl : Headline.

(** A toggle that answers [False] has done nothing. *)
Lemma fold_or_unfold_false fuel from_point level w :
  ending (SmartFoldingCommand.fold_or_unfold_headline_at_point
            host hl fuel from_point level w) = Return false ->
  SmartFoldingCommand.fold_or_unfold_headline_at_point
    host hl fuel from_point level w
  = mkResult [] w (Return false).
Proof.
  destruct fuel as [|fuel]; [discriminate|].
  rewrite ToggleFacts.fold_or_unfold_step.
  destruct (snd (headline_and_level_at_point hl (view w) from_point));
    [|reflexivity].
  destruct (is_scope_headline hl (view w) from_point); [|reflexivity].
  destruct (region_of_content_of_headline_at_point hl (view w) from_point);
    [|discriminate].
  rewrite ending_then_ret.
  match goal with
  | |- context [ending ?r] => destruct (ending r)
  end; intros E; discriminate E.
Qed.

(** Once [ever_matched] is true it stays true. *)
Lemma match_loop_true fuel n :
  forall i w,
    ending (for_sel n i (SmartFoldingCommand.match_body host hl fuel) true w)
    <> Return false.
Proof.
  induction n as [|n IH]; intros i w; [discriminate|].
  rewrite for_sel_step.
  destruct (nth_error (sel (view w)) i) as [x0|]; [|discriminate].
  rewrite bind_result.
  destruct (ToggleFacts.match_body_result host hl fuel x0 true w)
    as (_ & _ & ->).
  match goal with
  | |- context [match ending ?r with _ => _ end] =>
      destruct (ending r) as [m | e |]
  end; cbn [ending]; try discriminate.
  cbn zeta. cbn [ending]. destruct m; apply IH.
Qed.

(** The first loop of [run] leaves [ever_matched] false only if it has done
    nothing. *)
Lemma match_loop_false fuel n :
  forall i w,
    ending (for_sel n i (SmartFoldingCommand.match_body host hl fuel) false w)
    = Return false ->
    for_sel n i (SmartFoldingCommand.match_body host hl fuel) false w
    = mkResult [] w (Return false).
Proof.
  induction n as [|n IH]; intros i w; [discriminate|].
  rewrite for_sel_step.
  destruct (nth_error (sel (view w)) i) as [x0|]; [|reflexivity].
  rewrite bind_result.
  destruct (ToggleFacts.match_body_result host hl fuel x0 false w)
    as (-> & -> & ->).
  set (F := SmartFoldingCommand.fold_or_unfold_headline_at_point
              host hl fuel (Region.a x0) (ANY_LEVEL hl)).
  pose proof (fold_or_unfold_false fuel (Region.a x0) (ANY_LEVEL hl) w) as Hf.
  fold F in Hf.
  destruct (ending (F w)) as [[|] | e |] eqn:Em; cbn [ending]; try discriminate.
  - cbn zeta. cbn [ending]. intros E. now apply match_loop_true in E.
  - rewrite (Hf eq_refl). cbn [calls world ending app]. cbn zeta.
    intros E. rewrite (IH _ _ E). reflexivity.
Qed.

Lemma logs_match_loop fuel n i acc :
  logs host is_folding
       (for_sel n i (SmartFoldingCommand.match_body host hl fuel) acc).
Proof.
  apply logs_for_sel. intros r x. unfold SmartFoldingCommand.match_body.
  apply logs_bind; [apply FoldingFacts.logs_fold_or_unfold|].
  intros m. apply logs_ret.
Qed.

Lemma logs_tab_loop n i :
  logs host is_tab_or_show (for_sel n i (SmartFoldingCommand.tab_body host) tt).
Proof.
  apply logs_for_sel. intros r x. unfold SmartFoldingCommand.tab_body.
  apply logs_bind.
  - apply FoldingFacts.logs_view_insert. reflexivity.
  - intros _. now apply FoldingFacts.logs_view_show.
Qed.

(** X6: [run] never both folds and inserts: either all it asks is [fold]
    and [unfold], or the first loop has done nothing at all and [run] is the
    loop that inserts the tabs, run from the world as it was. *)
Theorem run_folds_or_inserts fuel w :
  let r := SmartFoldingCommand.run host hl fuel w in
  Forall (fun c => is_folding c = true) (calls r)
  \/ (Forall (fun c => is_tab_or_show c = true) (calls r)
      /\ r = for_sel fuel 0 (SmartFoldingCommand.tab_body host) tt w).
Proof.
  intros r; subst r. unfold SmartFoldingCommand.run. rewrite bind_result.
  pose proof (logs_match_loop fuel fuel 0 false w) as [Fl _].
  pose proof (match_loop_false fuel fuel 0 w) as Hf.
  destruct (ending (for_sel fuel 0 _ false w)) as [[|] | e |];
    cbn [calls world ending negb]; cbn zeta.
  - left. cbn [ret calls]. now rewrite app_nil_r.
  - right. rewrite (Hf eq_refl). cbn [calls world app].
    split; [apply (logs_tab_loop fuel 0 w)|].
    now destruct (for_sel fuel 0 _ tt w).
  - now left.
  - now left.
Qed.

Lemma range_bounds lo hi i : In i (range lo hi) -> lo <= i < hi.
Proof.
  unfold range. rewrite in_map_iff. intros (k & <- & Hk).
  apply in_seq in Hk. lia.
Qed.

Lemma for_each_nothing {A} (xs : list A) (body : A -> Cmd unit) w :
  (forall x, In x xs -> body x w = mkResult [] w (Return tt)) ->
  for_each xs body w = mkResult [] w (Return tt).
Proof.
  induction xs as [|x xs IH]; intros Hb; [reflexivity|].
  cbn [for_each]. rewrite bind_result, (Hb x) by (now left).
  cbn [calls world ending app]. cbn zeta.
  rewrite IH by (intros y Hy; apply Hb; now right). reflexivity.
Qed.

(** What a toggle does on a headline whose content is totally folded. *)
Lemma fold_or_unfold_folded_headline fuel from_point level content_region w :
  on_headline hl (view w) from_point = true ->
  region_of_content_of_headline_at_point hl (view w) from_point
  = Some content_region ->
  SmartFoldingCommand.is_region_totally_folded (view w) (Some content_region)
  = true ->
  exists lv,
    SmartFoldingCommand.fold_or_unfold_headline_at_point
      host hl (S fuel) from_point level w
    = (SmartFoldingCommand.unfold_yet_fold_subheads
         host hl fuel content_region lv ;; ret true) w.
Proof.
  intros H Hc Ht. rewrite ToggleFacts.fold_or_unfold_step.
  unfold on_headline in H.
  destruct (snd (headline_and_level_at_point hl (view w) from_point))
    as [lv|]; [|discriminate H].
  exists lv. now rewrite H, Hc, Ht.
Qed.

(** On a region without headline [unfold_yet_fold_subheads] unfolds and
    folds nothing: every line is toggled, and no toggle finds a headline. *)
Lemma unfold_yet_fold_subheads_leaf fuel region level w :
  let v' := unfold host (view w) region in
  (forall i,
      fst (rowcol host v' (Region.a region)) <= i
      <= fst (rowcol host v' (Region.b region)) ->
      on_headline hl v' (text_point host v' i 0) = false) ->
  SmartFoldingCommand.unfold_yet_fold_subheads host hl (S fuel) region level w
  = mkResult [ViewUnfold region] (mkWorld v' (temps w)) (Return tt).
Proof.
  intros v' Hleaf.
  unfold SmartFoldingCommand.unfold_yet_fold_subheads,
    SmartFoldingCommand.unfold_yet_fold_subheads_with,
    SmartFoldingCommand.view_unfold.
  rewrite bind_request. cbn zeta. rewrite bind_get_view. cbn [view].
  fold v'.
  destruct (rowcol host v' (Region.a region)) as [start_line c1].
  destruct (rowcol host v' (Region.b region)) as [end_line c2].
  cbn [fst] in Hleaf.
  rewrite for_each_nothing; [reflexivity|].
  intros i Hi. apply range_bounds in Hi.
  rewrite bind_get_view. cbn [view]. rewrite bind_result.
  rewrite ToggleFacts.fold_or_unfold_off_headline; [reflexivity|].
  cbn [view]. apply Hleaf. lia.
Qed.

(** X7: on a totally folded headline whose content region holds no headline
    line, the toggle asks for [view.unfold(content)] and nothing else, and
    answers [True]. *)
Theorem unfold_leaf_headline fuel from_point level content_region w :
  on_headline hl (view w) from_point = true ->
  region_of_content_of_headline_at_point hl (view w) from_point
  = Some content_region ->
  SmartFoldingCommand.is_region_totally_folded (view w) (Some content_region)
  = true ->
  let v' := unfold host (view w) content_region in
  (forall i,
      fst (rowcol host v' (Region.a content_region)) <= i
      <= fst (rowcol host v' (Region.b content_region)) ->
      on_headline hl v' (text_point host v' i 0) = false) ->
  SmartFoldingCommand.fold_or_unfold_headline_at_point
    host hl (S (S fuel)) from_point level w
  = mkResult [ViewUnfold content_region] (mkWorld v' (temps w)) (Return true).
Proof.
  intros H Hc Ht v' Hleaf.
  destruct (fold_or_unfold_folded_headline (S fuel) from_point level
              content_region w H Hc Ht) as [lv ->].
  rewrite bind_result.
  rewrite (unfold_yet_fold_subheads_leaf fuel content_region lv w Hleaf).
  reflexivity.
Qed.

(** X8: on a headline whose content holds no headline and is not totally
    folded, toggling twice folds the content and unfolds it again: the calls
    are [view.fold(content)], then [view.unfold(content)], for an editor that
    folds what it is asked to and a [headline] that reads the text only. *)
Theorem toggle_twice_on_leaf_headline fuel from_point level content_region w :
  reads_text_only host hl ->
  editor_folds host ->
  on_headline hl (view w) from_point = true ->
  region_of_content_of_headline_at_point hl (view w) from_point
  = Some content_region ->
  SmartFoldingCommand.is_region_totally_folded (view w) (Some content_region)
  = false ->
  (forall i,
      fst (rowcol host (view w) (Region.a content_region)) <= i
      <= fst (rowcol host (view w) (Region.b content_region)) ->
      on_headline hl (view w) (text_point host (view w) i 0) = false) ->
  let once := SmartFoldingCommand.fold_or_unfold_headline_at_point
                host hl (S (S fuel)) from_point level w in
  let twice := SmartFoldingCommand.fold_or_unfold_headline_at_point
                 host hl (S (S fuel)) from_point level (world once) in
  calls once = [ViewFold content_region]
  /\ calls twice = [ViewUnfold content_region]
  /\ ending twice = Return true
  /\ view (world twice)
     = unfold host (fold host (view w) content_region) content_region.
Proof.
  intros Rt Ef H Hc Hn Hleaf once twice.
  assert (E1 : once = mkResult [ViewFold content_region]
                 (mkWorld (fold host (view w) content_region) (temps w))
                 (Return true)).
  { subst once. rewrite ToggleFacts.fold_or_unfold_step.
    unfold on_headline in H.
    destruct (snd (headline_and_level_at_point hl (view w) from_point))
      as [lv|]; [|discriminate H].
    rewrite H, Hc, Hn. reflexivity. }
  subst twice. rewrite E1. cbn [calls world]. split; [reflexivity|].
  set (v1 := fold host (view w) content_region).
  destruct (Ef (view w) content_region) as (T1 & _ & F1 & _).
  destruct (Ef v1 content_region) as (_ & T2 & _ & _).
  destruct (Rt v1 (view w) T1) as (P1 & _ & _).
  assert (T3 : text (unfold host v1 content_region) = text (view w))
    by (now rewrite T2).
  destruct (Rt (unfold host v1 content_region) (view w) T3) as (P3 & _ & X3).
  destruct (fold_or_unfold_folded_headline (S fuel) from_point level
              content_region (mkWorld v1 (temps w))) as [lv ->];
    cbn [view temps].
  - unfold on_headline in *. destruct (P1 from_point) as (-> & -> & _).
    exact H.
  - destruct (P1 from_point) as (_ & _ & -> & _). exact Hc.
  - exact F1.
  - rewrite bind_result, unfold_yet_fold_subheads_leaf; cbn [view temps].
    + repeat split.
    + intros i. destruct (P3 (Region.a content_region)) as (_ & _ & _ & ->).
      destruct (P3 (Region.b content_region)) as (_ & _ & _ & ->).
      rewrite X3. intros Hi. unfold on_headline.
      destruct (P3 (text_point host (view w) i 0)) as (-> & -> & _).
      now apply Hleaf.
Qed.

(** On a headline without content the toggle does nothing, and answers
    [True]. *)
Lemma fold_or_unfold_empty_headline fuel from_point level w :
  on_headline hl (view w) from_point = true ->
  region_of_content_of_headline_at_point hl (view w) from_point = None ->
  SmartFoldingCommand.fold_or_unfold_headline_at_point
    host hl (S fuel) from_point level w
  = mkResult [] w (Return true).
Proof.
  intros H Hc. rewrite ToggleFacts.fold_or_unfold_step.
  unfold on_headline in H.
  destruct (snd (headline_and_level_at_point hl (view w) from_point));
    [|discriminate H].
  now rewrite H, Hc.
Qed.

Lemma match_loop_empty_headlines fuel n :
  forall i acc w,
    (forall x, In x (sel (view w)) ->
               on_headline hl (view w) (Region.a x) = true
               /\ region_of_content_of_headline_at_point hl (view w)
                    (Region.a x) = None) ->
    (List.length (sel (view w)) - i < n)%nat ->
    for_sel n i (SmartFoldingCommand.match_body host hl (S fuel)) acc w
    = mkResult [] w
        (Return (acc || (i <? List.length (sel (view w)))%nat)).
Proof.
  induction n as [|n IH]; intros i acc w Hall Hn; [lia|].
  rewrite for_sel_step.
  destruct (nth_error (sel (view w)) i) as [x0|] eqn:Ei.
  - assert (Hi : (i < List.length (sel (view w)))%nat).
    { apply nth_error_Some. congruence. }
    destruct (Hall x0 (nth_error_In _ _ Ei)) as [Ho Hc].
    rewrite bind_result.
    destruct (ToggleFacts.match_body_result host hl (S fuel) x0 acc w)
      as (-> & -> & ->).
    rewrite (fold_or_unfold_empty_headline fuel _ _ w Ho Hc).
    cbn [calls world ending app]. cbn zeta.
    rewrite (IH (S i) true w Hall) by lia. cbn [calls world ending orb].
    apply Nat.ltb_lt in Hi. rewrite Hi, orb_true_r. reflexivity.
  - apply nth_error_None in Ei. apply Nat.ltb_ge in Ei. rewrite Ei, orb_false_r.
    reflexivity.
Qed.

(** X9: when every selection point is on a headline without content, [run]
    does nothing: no fold, and no tab either. *)
Theorem run_on_empty_headlines fuel w :
  (forall x, In x (sel (view w)) ->
             on_headline hl (view w) (Region.a x) = true
             /\ region_of_content_of_headline_at_point hl (view w)
                  (Region.a x) = None) ->
  (List.length (sel (view w)) < fuel)%nat ->
  SmartFoldingCommand.run host hl fuel w = mkResult [] w (Return tt).
Proof.
  intros Hall Hn. destruct fuel as [|fuel]; [lia|].
  unfold SmartFoldingCommand.run.
  rewrite bind_result, (match_loop_empty_headlines fuel (S fuel) 0 false w)
    by (assumption || lia).
  cbn [calls world ending orb app]. cbn zeta.
  destruct (sel (view w)) as [|x l] eqn:Es;
    cbn [List.length Nat.ltb Nat.leb negb].
  - rewrite for_sel_step, Es. reflexivity.
  - reflexivity.
Qed.

End Facts.
End TabFacts.

(** * More on the global command *)

Module GlobalFacts.
Section Facts.

Variable host : Host.
Variable hl : Headline.

Lemma is_global_folded_while_reads fuel :
  forall point region w,
    calls (GlobalFoldingCommand.is_global_folded_while hl fuel point region w)
    = []
    /\ world (GlobalFoldingCommand.is_global_folded_while hl fuel point
                region w) = w
    /\ forall e,
        ending (GlobalFoldingCommand.is_global_folded_while hl fuel point
                  region w) <> Raise e.
Proof.
  induction fuel as [|fuel IH]; intros point [r0|] w;
    rewrite ?ScanFacts.is_global_folded_while_done;
    try (repeat split; discriminate).
  rewrite ScanFacts.is_global_folded_while_step. cbn zeta.
  destruct (SmartFoldingCommand.is_region_totally_folded _ _);
    [|repeat split; discriminate].
  destruct (find_headline hl _ _ _ _ _) as [[r|] lv];
    [apply IH | repeat split; discriminate].
Qed.

Lemma is_global_folded_reads fuel w :
  let r := GlobalFoldingCommand.is_global_folded hl fuel w in
  calls r = [] /\ world r = w /\ forall e, ending r <> Raise e.
Proof.
  intros r; subst r. unfold GlobalFoldingCommand.is_global_folded.
  rewrite bind_get_view.
  destruct (find_headline hl _ _ _ _ _) as [[r|] lv];
    [apply is_global_folded_while_reads | repeat split; discriminate].
Qed.

(** X10: [is_global_folded] only reads: it asks nothing of the editor,
    leaves the world as it is and raises no exception, whatever the buffer
    holds.  So the global command is one of its two branches, run from the
    world as it was: [unfold_all] when the answer is [True], [fold_all] when
    it is [False]. *)
Theorem is_global_folded_only_reads fuel w :
  let r := GlobalFoldingCommand.is_global_folded hl fuel w in
  calls r = [] /\ world r = w /\ (forall e, ending r <> Raise e)
  /\ GlobalFoldingCommand.run host hl fuel w
     = match ending r with
       | Return true => GlobalFoldingCommand.unfold_all host w
       | Return false => GlobalFoldingCommand.fold_all host hl fuel w
       | Raise e => mkResult [] w (Raise e)
       | OutOfFuel => mkResult [] w OutOfFuel
       end.
Proof.
  intros r. destruct (is_global_folded_reads fuel w) as (Ec & Ew & NR).
  fold r in Ec, Ew, NR. repeat split; try assumption.
  unfold GlobalFoldingCommand.run. rewrite bind_result. fold r.
  rewrite Ec, Ew. destruct (ending r) as [[|] | e |]; cbn [app]; cbn zeta.
  - now destruct (GlobalFoldingCommand.unfold_all host w).
  - now destruct (GlobalFoldingCommand.fold_all host hl fuel w).
  - reflexivity.
  - reflexivity.
Qed.

Lemma is_global_folded_no_headline fuel w lv :
  find_headline hl (view w) 0 (ANY_LEVEL hl) true None = (None, lv) ->
  GlobalFoldingCommand.is_global_folded hl fuel w = mkResult [] w (Return true).
Proof.
  intros E. unfold GlobalFoldingCommand.is_global_folded.
  now rewrite bind_get_view, E.
Qed.

(** What [unfold_all] does. *)
Lemma unfold_all_result w :
  let v' := unfold host (view w) (Region.mk 0 (size (view w))) in
  GlobalFoldingCommand.unfold_all host w
  = mkResult
      (ViewUnfold (Region.mk 0 (size (view w)))
         :: match sel v' with [] => [] | r :: _ => [ViewShow r] end)
      (mkWorld v' (temps w))
      (match sel v' with [] => Raise (IndexError "") | _ :: _ => Return tt end).
Proof.
  intros v'. unfold GlobalFoldingCommand.unfold_all.
  rewrite bind_get_view. unfold SmartFoldingCommand.view_unfold.
  rewrite bind_request. cbn zeta. rewrite bind_get_view. cbn [view].
  fold v'. destruct (sel v'); reflexivity.
Qed.

(** X12: in a buffer without headline the global command unfolds the whole
    buffer and shows the first selection region, whatever is folded; with an
    empty selection it raises [IndexError], after the unfolding. *)
Theorem run_without_headlines fuel w lv :
  find_headline hl (view w) 0 (ANY_LEVEL hl) true None = (None, lv) ->
  let v' := unfold host (view w) (Region.mk 0 (size (view w))) in
  GlobalFoldingCommand.run host hl fuel w
  = mkResult
      (ViewUnfold (Region.mk 0 (size (view w)))
         :: match sel v' with [] => [] | r :: _ => [ViewShow r] end)
      (mkWorld v' (temps w))
      (match sel v' with [] => Raise (IndexError "") | _ :: _ => Return tt end).
Proof.
  intros E v'. unfold GlobalFoldingCommand.run.
  rewrite bind_result, (is_global_folded_no_headline fuel w lv E).
  cbn [calls world ending app]. cbn zeta. rewrite unfold_all_result.
  reflexivity.
Qed.

Lemma never_raises_fold_all_while fuel :
  forall point region,
    never_raises
      (GlobalFoldingCommand.fold_all_while host hl fuel point region).
Proof.
  induction fuel as [|fuel IH]; intros point region;
    cbn [GlobalFoldingCommand.fold_all_while];
    destruct (truthy region); cbn [negb];
    try apply never_raises_ret; try apply never_raises_out_of_fuel.
  apply never_raises_bind; [apply never_raises_get_view|]. intros v.
  apply never_raises_bind.
  - destruct (region_of_content_of_headline_at_point hl v point);
      [|apply never_raises_ret].
    apply never_raises_bind; [apply never_raises_request|].
    intros _. apply never_raises_ret.
  - intros point'. apply never_raises_bind; [apply never_raises_get_view|].
    intros v'. destruct (find_headline hl v' _ _ _ _) as [region' level'].
    apply IH.
Qed.

Lemma never_raises_adjust fuel :
  never_raises (GlobalFoldingCommand.adjust_cursors_and_view host fuel).
Proof.
  unfold GlobalFoldingCommand.adjust_cursors_and_view.
  apply never_raises_bind; [apply never_raises_get_view|]. intros v.
  apply never_raises_bind.
  - apply never_raises_for_sel. intros r x. apply never_raises_ret.
  - intros new_sel. apply never_raises_bind; [apply never_raises_request|].
    intros _. apply never_raises_for_each. intros r.
    apply never_raises_bind; [apply never_raises_request|].
    intros _. apply never_raises_emit.
Qed.

(** X11: the only exception the global command raises is the [IndexError]
    of [unfold_all] on an empty selection.  The [AttributeError] of [fold_all]
    on a buffer without headline cannot occur: [fold_all] runs only when
    [is_global_folded] has found a headline. *)
Theorem global_run_raises_only fuel w e :
  ending (GlobalFoldingCommand.run host hl fuel w) = Raise e ->
  e = IndexError ""
  /\ sel (unfold host (view w) (Region.mk 0 (size (view w)))) = []
  /\ ending (GlobalFoldingCommand.is_global_folded hl fuel w) = Return true.
Proof.
  unfold GlobalFoldingCommand.run. rewrite bind_result.
  destruct (is_global_folded_reads fuel w) as (Ec & Ew & NR).
  destruct (ending (GlobalFoldingCommand.is_global_folded hl fuel w))
    as [[|] | e' |] eqn:Eg; cbn zeta; cbn [ending].
  - rewrite Ew, unfold_all_result. cbn [ending].
    destruct (sel _); [|discriminate].
    intros E. injection E as <-. repeat split.
  - rewrite Ew. unfold GlobalFoldingCommand.fold_all.
    rewrite bind_get_view.
    destruct (find_headline hl (view w) 0 (ANY_LEVEL hl) true None)
      as [[r|] lv] eqn:Ef.
    + intros E. exfalso. revert E.
      apply (never_raises_bind
               (GlobalFoldingCommand.fold_all_while host hl fuel
                  (Region.a r) (Some r))
               (fun _ => GlobalFoldingCommand.adjust_cursors_and_view
                           host fuel)).
      * apply never_raises_fold_all_while.
      * intros _. apply never_raises_adjust.
    + rewrite (is_global_folded_no_headline fuel w lv Ef) in Eg.
      discriminate Eg.
  - now destruct (NR e').
  - discriminate.
Qed.

(** *** The selection after folding *)

(** A loop over the selection whose body asks nothing of the editor runs
    over the selection as it is. *)
Lemma for_sel_collect (g : Region.t -> Region.t) n :
  forall i acc w,
    (List.length (sel (view w)) - i < n)%nat ->
    for_sel n i (fun r new_sel => ret (new_sel ++ [g r])%list) acc w
    = mkResult [] w (Return (acc ++ map g (skipn i (sel (view w))))%list).
Proof.
  induction n as [|n IH]; intros i acc w Hn; [lia|].
  rewrite for_sel_step.
  destruct (nth_error (sel (view w)) i) as [x0|] eqn:Ei.
  - assert (Hi : (i < List.length (sel (view w)))%nat).
    { apply nth_error_Some. congruence. }
    rewrite bind_result. cbn [ret calls world ending app]. cbn zeta.
    rewrite IH by lia. cbn [calls world ending].
    assert (Hs : skipn i (sel (view w)) = x0 :: skipn (S i) (sel (view w))).
    { clear - Ei. revert i Ei. induction (sel (view w)) as [|y l IHl];
        intros [|i] Ei; try discriminate Ei.
      - now injection Ei as ->.
      - cbn. apply (IHl i Ei). }
    rewrite Hs. cbn [map]. now rewrite <- app_assoc.
  - apply nth_error_None in Ei. rewrite skipn_all2 by exact Ei.
    cbn [map]. now rewrite app_nil_r.
Qed.

Lemma for_each_add rs :
  forall w,
    for_each rs
      (fun r => request (SelAdd r) (fun v => sel_add host v r) ;;
                SmartFoldingCommand.view_show r) w
    = mkResult (add_all rs)
               (mkWorld (fold_left (sel_add host) rs (view w)) (temps w))
               (Return tt).
Proof.
  induction rs as [|r rs IH]; intros w; [now destruct w|].
  cbn [for_each]. rewrite bind_result, bind_request.
  cbn [SmartFoldingCommand.view_show emit calls world ending app]. cbn zeta.
  rewrite IH. reflexivity.
Qed.

(** X13: [adjust_cursors_and_view] clears the selection and adds, in
    order, one region for each region it held: the end of the first folded
    region that contains it, or the region itself when none does.  With no
    selection region inside a fold the selection is rebuilt as it was. *)
Theorem adjust_cursors_and_view_result fuel w :
  (List.length (sel (view w)) < fuel)%nat ->
  let v := view w in
  let new_sel := map (relocate (folded_regions v)) (sel v) in
  let r := GlobalFoldingCommand.adjust_cursors_and_view host fuel w in
  calls r = SelClear :: add_all new_sel
  /\ view (world r) = fold_left (sel_add host) new_sel (sel_clear host v)
  /\ ending r = Return tt
  /\ List.length new_sel = List.length (sel v)
  /\ ((forall x f, In x (sel v) -> In f (folded_regions v) ->
                   Region.contains f x = false) ->
      new_sel = sel v).
Proof.
  intros Hn v new_sel r; subst v new_sel r.
  unfold GlobalFoldingCommand.adjust_cursors_and_view.
  rewrite bind_get_view, bind_result.
  change (fun (r : Region.t) (new_sel : list Region.t) =>
            ret (new_sel ++ [match find (fun folded => Region.contains folded r)
                                        (folded_regions (view w)) with
                             | Some folded =>
                                 Region.mk (Region.b folded) (Region.b folded)
                             | None => r
                             end])%list)
    with (fun (r : Region.t) (new_sel : list Region.t) =>
            ret (new_sel ++ [relocate (folded_regions (view w)) r])%list).
  rewrite for_sel_collect by lia.
  cbn [calls world ending app skipn]. cbn zeta.
  rewrite bind_request. cbn zeta. rewrite for_each_add.
  cbn [calls world ending view]. repeat split.
  - apply length_map.
  - intros Hout. rewrite <- (map_id (sel (view w))) at 2.
    apply map_ext_in. intros x Hx. unfold relocate.
    destruct (find _ (folded_regions (view w))) as [f|] eqn:Ef; [|reflexivity].
    apply find_some in Ef. destruct Ef as [Hf Hc].
    rewrite (Hout x f Hx Hf) in Hc. discriminate Hc.
Qed.

(** *** Folding all, then asking whether all is folded *)

Lemma totally_folded_by_folds v v' x :
  folded_regions v = folded_regions v' ->
  SmartFoldingCommand.is_region_totally_folded v x
  = SmartFoldingCommand.is_region_totally_folded v' x.
Proof.
  intros E. unfold SmartFoldingCommand.is_region_totally_folded.
  now rewrite E.
Qed.

Lemma fold_all_while_keeps fuel :
  editor_folds host ->
  forall point region w,
    let r := GlobalFoldingCommand.fold_all_while host hl fuel point region w in
    text (view (world r)) = text (view w)
    /\ forall x,
        SmartFoldingCommand.is_region_totally_folded (view w) x = true ->
        SmartFoldingCommand.is_region_totally_folded (view (world r)) x = true.
Proof.
  intros Ef. induction fuel as [|fuel IH]; intros point [r0|] w r; subst r;
    rewrite ?ScanFacts.fold_all_while_done; try (split; [reflexivity | auto]).
  rewrite ScanFacts.fold_all_while_step.
  destruct (region_of_content_of_headline_at_point hl (view w) point)
    as [rc|].
  - cbn zeta. cbn [world].
    destruct (Ef (view w) rc) as (T1 & _ & _ & M1).
    set (w1 := mkWorld (fold host (view w) rc) (temps w)).
    destruct (find_headline hl (view w1) _ _ _ _) as [[r'|] lv].
    + destruct (IH (Region.a r') (Some r') w1) as [T M].
      split; [rewrite T; exact T1 | intros x Hx; apply M, M1, Hx].
    + cbn [world]. split; [exact T1 | exact M1].
  - destruct (find_headline hl (view w) _ _ _ _) as [[r'|] lv].
    + apply IH.
    + split; [reflexivity | auto].
Qed.

(** The scan of [is_global_folded] goes the way the scan of [fold_all] went,
    and finds every content region folded. *)
Lemma is_global_folded_after_fold_all_while fuel :
  reads_text_only host hl ->
  editor_folds host ->
  forall point region w w',
    let r := GlobalFoldingCommand.fold_all_while host hl fuel point region w in
    ending r = Return tt ->
    text (view w') = text (view w) ->
    (forall x,
        SmartFoldingCommand.is_region_totally_folded (view (world r)) x
        = true ->
        SmartFoldingCommand.is_region_totally_folded (view w') x = true) ->
    ending (GlobalFoldingCommand.is_global_folded_while hl fuel point region w')
    = Return true.
Proof.
  intros Rt Ef. induction fuel as [|fuel IH]; intros point [r0|] w w' r;
    subst r; rewrite ?ScanFacts.is_global_folded_while_done;
    try reflexivity; [discriminate|].
  rewrite ScanFacts.fold_all_while_step,
    ScanFacts.is_global_folded_while_step.
  intros Er Tw Mw. cbn zeta.
  destruct (Rt (view w') (view w) Tw) as (P & Fh & _).
  destruct (P point) as (_ & _ & -> & _).
  destruct (region_of_content_of_headline_at_point hl (view w) point)
    as [rc|].
  - cbn zeta in Er, Mw. cbn [world ending] in Er, Mw.
    destruct (Ef (view w) rc) as (T1 & _ & F1 & _).
    set (w1 := mkWorld (fold host (view w) rc) (temps w)) in *.
    assert (Tw1 : text (view w') = text (view w1))
      by (rewrite Tw; symmetry; exact T1).
    destruct (Rt (view w') (view w1) Tw1) as (_ & Fh1 & _).
    rewrite Fh1.
    destruct (find_headline hl (view w1) (Region.b rc) _ _ _)
      as [[r'|] lv] eqn:Efind.
    + rewrite Mw.
      * apply (IH (Region.a r') (Some r') w1 w' Er Tw1 Mw).
      * apply (fold_all_while_keeps fuel Ef (Region.a r') (Some r') w1).
        exact F1.
    + cbn [world] in Mw. now rewrite (Mw _ F1).
  - cbn [SmartFoldingCommand.is_region_totally_folded]. rewrite Fh.
    destruct (find_headline hl (view w) point _ _ _) as [[r'|] lv].
    + apply (IH (Region.a r') (Some r') w w' Er Tw Mw).
    + reflexivity.
Qed.

Lemma replay_selection_calls v l :
  selection_is_apart host ->
  Forall (fun c => is_selection_call c = true) l ->
  text (replay host v l) = text v
  /\ folded_regions (replay host v l) = folded_regions v.
Proof.
  intros Sa F. revert v.
  induction F as [|c l Hc _ IH]; intros v; [split; reflexivity|].
  change (replay host v (c :: l)) with (replay host (apply_call host v c) l).
  destruct (IH (apply_call host v c)) as [T Fr]. rewrite T, Fr.
  destruct (Sa v) as [[Tc Fc] Ha].
  destruct c; try discriminate Hc; cbn [apply_call];
    [split; reflexivity | split; assumption | apply Ha].
Qed.

Lemma logs_adjust fuel :
  logs host is_selection_call
       (GlobalFoldingCommand.adjust_cursors_and_view host fuel).
Proof.
  unfold GlobalFoldingCommand.adjust_cursors_and_view.
  apply logs_bind; [apply logs_get_view|]. intros v.
  apply logs_bind; [apply logs_for_sel; intros; apply logs_ret|].
  intros new_sel. apply logs_bind; [now apply logs_request|]. intros _.
  apply logs_for_each. intros r.
  apply logs_bind; [now apply logs_request|].
  intros _. now apply FoldingFacts.logs_view_show.
Qed.

(** X14: after [fold_all] has returned, [is_global_folded] answers [True],
    so the global command run again unfolds all; for an editor that folds
    what it is asked to and keeps the text, and a [headline] that reads the
    text only. *)
Theorem fold_all_then_is_global_folded fuel w :
  reads_text_only host hl ->
  editor_folds host ->
  selection_is_apart host ->
  let r := GlobalFoldingCommand.fold_all host hl fuel w in
  ending r = Return tt ->
  ending (GlobalFoldingCommand.is_global_folded hl fuel (world r))
  = Return true
  /\ GlobalFoldingCommand.run host hl fuel (world r)
     = GlobalFoldingCommand.unfold_all host (world r).
Proof.
  intros Rt Ef Sa r Er.
  assert (G : ending (GlobalFoldingCommand.is_global_folded hl fuel (world r))
              = Return true).
  { subst r. revert Er. unfold GlobalFoldingCommand.fold_all.
    rewrite bind_get_view.
    destruct (find_headline hl (view w) 0 (ANY_LEVEL hl) true None)
      as [[r0|] lv] eqn:Ef0; [|discriminate].
    rewrite bind_result.
    set (rl := GlobalFoldingCommand.fold_all_while host hl fuel (Region.a r0)
                 (Some r0) w).
    destruct (ending rl) as [[] | e |] eqn:El; [|discriminate|discriminate].
    cbn zeta. cbn [world ending]. intros _.
    set (ra := GlobalFoldingCommand.adjust_cursors_and_view host fuel
                 (world rl)).
    destruct (logs_adjust fuel (world rl)) as [Fa Va]. fold ra in Fa, Va.
    destruct (replay_selection_calls (view (world rl)) _ Sa Fa) as [Ta Fra].
    rewrite <- Va in Ta, Fra.
    destruct (fold_all_while_keeps fuel Ef (Region.a r0) (Some r0) w)
      as [Tl _]. fold rl in Tl.
    assert (Tw : text (view (world ra)) = text (view w)) by (now rewrite Ta).
    unfold GlobalFoldingCommand.is_global_folded. rewrite bind_get_view.
    destruct (Rt (view (world ra)) (view w) Tw) as (_ & Fh & _).
    rewrite Fh, Ef0.
    apply (is_global_folded_after_fold_all_while fuel Rt Ef (Region.a r0)
             (Some r0) w (world ra) El Tw).
    intros x Hx. fold rl in Hx.
    now rewrite (totally_folded_by_folds _ _ x Fra). }
  split; [exact G|].
  unfold GlobalFoldingCommand.run. rewrite bind_result.
  destruct (is_global_folded_reads fuel (world r)) as (Ec & Ew & _).
  rewrite G, Ec, Ew. cbn zeta. cbn [app].
  now destruct (GlobalFoldingCommand.unfold_all host (world r)).
Qed.

(** *** The global command and the text *)

Lemma logs_global_run_keeping fuel :
  logs host is_view_keeping (GlobalFoldingCommand.run host hl fuel).
Proof.
  unfold GlobalFoldingCommand.run.
  apply logs_bind.
  - unfold GlobalFoldingCommand.is_global_folded.
    apply logs_bind; [apply logs_get_view|]. intros v.
    destruct (find_headline hl v _ _ _ _) as [[r|] level]; [|apply logs_ret].
    apply FoldingFacts.logs_is_global_folded_while.
  - intros [|].
    + unfold GlobalFoldingCommand.unfold_all.
      apply logs_bind; [apply logs_get_view|]. intros v.
      apply logs_bind; [now apply FoldingFacts.logs_view_unfold|]. intros _.
      apply logs_bind; [apply logs_get_view|]. intros v'.
      destruct (sel v');
        [apply logs_raise | now apply FoldingFacts.logs_view_show].
    + unfold GlobalFoldingCommand.fold_all.
      apply logs_bind; [apply logs_get_view|]. intros v.
      destruct (find_headline hl v _ _ _ _) as [[r|] level];
        [|apply logs_raise].
      apply logs_bind.
      * apply logs_weaken with (ok := is_folding);
          [ intros [] E; (discriminate E || reflexivity)
          | apply FoldingFacts.logs_fold_all_while ].
      * intros _. apply logs_weaken with (ok := is_selection_call);
          [ intros [] E; (discriminate E || reflexivity)
          | apply logs_adjust ].
Qed.

Lemma replay_keeps_text v l :
  editor_folds host ->
  selection_is_apart host ->
  Forall (fun c => is_view_keeping c = true) l ->
  text (replay host v l) = text v.
Proof.
  intros Ef Sa F. revert v.
  induction F as [|c l Hc _ IH]; intros v; [reflexivity|].
  change (replay host v (c :: l)) with (replay host (apply_call host v c) l).
  rewrite IH. destruct (Sa v) as [[Tc _] Ha].
  destruct c; try discriminate Hc; cbn [apply_call]; try reflexivity.
  - apply (Ef v r).
  - apply (Ef v r).
  - exact Tc.
  - apply Ha.
Qed.

(** X15: the global command never asks for an insert; with an editor whose
    folding and selection calls keep the text, the text after it is the text
    before. *)
Theorem global_run_never_edits fuel w :
  let r := GlobalFoldingCommand.run host hl fuel w in
  filter is_insert (calls r) = []
  /\ (editor_folds host -> selection_is_apart host ->
      text (view (world r)) = text (view w)).
Proof.
  intros r. destruct (logs_global_run_keeping fuel w) as [F V].
  fold r in F, V. split.
  - clear V. induction F as [|c l Hc _ IH]; [reflexivity|].
    destruct c; try discriminate Hc; exact IH.
  - intros Ef Sa. rewrite V. now apply replay_keeps_text.
Qed.

(** X16: when nothing is folded and the first headline has content, the
    global command finds the buffer not folded and starts by folding that
    content. *)
Theorem global_run_folds_when_unfolded fuel w r0 lv content_region :
  folded_regions (view w) = [] ->
  find_headline hl (view w) 0 (ANY_LEVEL hl) true None = (Some r0, lv) ->
  region_of_content_of_headline_at_point hl (view w) (Region.a r0)
  = Some content_region ->
  Region.a content_region <> Region.b content_region ->
  ending (GlobalFoldingCommand.is_global_folded hl (S fuel) w) = Return false
  /\ exists rest,
      calls (GlobalFoldingCommand.run host hl (S fuel) w)
      = ViewFold content_region :: rest.
Proof.
  intros Hf Hh Hc Hne.
  assert (G : GlobalFoldingCommand.is_global_folded hl (S fuel) w
              = mkResult [] w (Return false)).
  { unfold GlobalFoldingCommand.is_global_folded.
    rewrite bind_get_view, Hh, ScanFacts.is_global_folded_while_step.
    cbn zeta. rewrite Hc.
    unfold SmartFoldingCommand.is_region_totally_folded.
    apply Z.eqb_neq in Hne. now rewrite Hne, Hf. }
  split; [now rewrite G|].
  unfold GlobalFoldingCommand.run. rewrite bind_result, G.
  cbn [calls world ending app]. cbn zeta.
  unfold GlobalFoldingCommand.fold_all.
  rewrite bind_get_view, Hh, bind_result, ScanFacts.fold_all_while_step, Hc.
  cbn zeta. cbn [calls world ending].
  match goal with
  | |- context [match ?e with Return _ => _ | Raise _ => _ | OutOfFuel => _ end]
    => destruct e
  end; cbn [calls app]; eexists; reflexivity.
Qed.

End Facts.
End GlobalFacts.

(** * The toggle returns *)

Module RecursionFacts.
Section Facts.

Variable host : Host.
Variable hl : Headline.

Lemma for_each_ext {A} (xs : list A) (f g : A -> Cmd unit) w :
  (forall x w', In x xs -> f x w' = g x w') ->
  for_each xs f w = for_each xs g w.
Proof.
  revert w. induction xs as [|x xs IH]; intros w H; [reflexivity|].
  cbn [for_each]. rewrite !bind_result, (H x w (or_introl eq_refl)).
  cbn zeta. destruct (ending (g x w)); try reflexivity.
  rewrite IH; [reflexivity|]. intros y w' Hy. apply H. now right.
Qed.

(** X17: the [level] argument of the toggle is dead: it is overwritten by
    the level of the headline at the point before it is read, so neither
    [fold_or_unfold_headline_at_point] nor [unfold_yet_fold_subheads], which
    only passes [level + 1] on, depends on it. *)
Theorem level_argument_is_dead fuel from_point region level level' w :
  SmartFoldingCommand.fold_or_unfold_headline_at_point
    host hl fuel from_point level w
  = SmartFoldingCommand.fold_or_unfold_headline_at_point
      host hl fuel from_point level' w
  /\ SmartFoldingCommand.unfold_yet_fold_subheads host hl fuel region level w
     = SmartFoldingCommand.unfold_yet_fold_subheads
         host hl fuel region level' w.
Proof.
  assert (T : forall p l l' w',
             SmartFoldingCommand.fold_or_unfold_headline_at_point
               host hl fuel p l w'
             = SmartFoldingCommand.fold_or_unfold_headline_at_point
                 host hl fuel p l' w').
  { intros p l l' w'. destruct fuel as [|fuel']; [reflexivity|].
    now rewrite !ToggleFacts.fold_or_unfold_step. }
  split; [apply T|].
  unfold SmartFoldingCommand.unfold_yet_fold_subheads,
    SmartFoldingCommand.unfold_yet_fold_subheads_with,
    SmartFoldingCommand.view_unfold.
  rewrite !bind_request. cbn zeta. rewrite !bind_get_view. cbn [view].
  destruct (rowcol host _ (Region.a region)) as [start_line c1].
  destruct (rowcol host _ (Region.b region)) as [end_line c2].
  match goal with
  | |- context [for_each ?xs ?f ?w0] =>
      rewrite (for_each_ext xs f
                 (fun i =>
                    v <- get_view ;;
                    SmartFoldingCommand.fold_or_unfold_headline_at_point
                      host hl fuel (text_point host v i 0) (level' + 1) ;;
                    ret tt) w0)
  end; [reflexivity|].
  intros i w' _.
  rewrite !bind_get_view, !bind_result.
  now rewrite (T _ (level + 1) (level' + 1)).
Qed.

(** Folding keeps the text. *)
Lemma replay_folding_keeps_text v l :
  editor_folds host ->
  Forall (fun c => is_folding c = true) l ->
  text (replay host v l) = text v.
Proof.
  intros Ef F. revert v.
  induction F as [|c l Hc _ IH]; intros v; [reflexivity|].
  change (replay host v (c :: l)) with (replay host (apply_call host v c) l).
  rewrite IH.
  destruct c; try discriminate Hc; cbn [apply_call]; apply (Ef v r).
Qed.

Lemma toggle_keeps_text fuel from_point level w :
  editor_folds host ->
  text (view (world (SmartFoldingCommand.fold_or_unfold_headline_at_point
                       host hl fuel from_point level w)))
  = text (view w).
Proof.
  intros Ef.
  destruct (FoldingFacts.logs_fold_or_unfold host hl fuel from_point level w)
    as [F ->].
  now apply replay_folding_keeps_text.
Qed.

(** A loop whose turns return and keep an invariant returns, and keeps it. *)
Lemma for_each_returns {A} (Inv : World -> Prop) (xs : list A)
      (body : A -> Cmd unit) :
  (forall x w, In x xs -> Inv w ->
               ending (body x w) = Return tt /\ Inv (world (body x w))) ->
  forall w, Inv w ->
            ending (for_each xs body w) = Return tt
            /\ Inv (world (for_each xs body w)).
Proof.
  induction xs as [|x xs IH]; intros Hb w Hw; [now split|].
  cbn [for_each]. rewrite bind_result.
  destruct (Hb x w (or_introl eq_refl) Hw) as [E I]. rewrite E. cbn zeta.
  cbn [ending world].
  apply IH; [|exact I]. intros y w' Hy. apply Hb. now right.
Qed.

Lemma toggle_depth_text v v' from_point :
  reads_text_only host hl -> text v = text v' ->
  toggle_depth hl v from_point = toggle_depth hl v' from_point.
Proof.
  intros Rt E. unfold toggle_depth.
  destruct (Rt v v' E) as (P & _ & _).
  now destruct (P from_point) as (_ & _ & -> & _).
Qed.

(** The recursion of the toggle ends: each call into
    [unfold_yet_fold_subheads] is for a smaller content region. *)
Lemma toggle_ends fuel from_point level w :
  reads_text_only host hl ->
  editor_folds host ->
  content_nests host hl ->
  (toggle_depth hl (view w) from_point <= fuel)%nat ->
  exists b,
    ending (SmartFoldingCommand.fold_or_unfold_headline_at_point
              host hl fuel from_point level w) = Return b.
Proof.
  intros Rt Ef Cn. revert from_point level w.
  induction fuel as [|fuel IH]; intros from_point level w Hd.
  { unfold toggle_depth in Hd.
    destruct (region_of_content_of_headline_at_point hl _ _); lia. }
  rewrite ToggleFacts.fold_or_unfold_step.
  destruct (snd (headline_and_level_at_point hl (view w) from_point))
    as [lv|]; [|now exists false].
  destruct (is_scope_headline hl (view w) from_point); [|now exists false].
  unfold toggle_depth in Hd.
  destruct (region_of_content_of_headline_at_point hl (view w) from_point)
    as [R|] eqn:ER; [|now exists true].
  exists true. rewrite bind_result.
  destruct (SmartFoldingCommand.is_region_totally_folded _ _).
  2:{ reflexivity. }
  unfold SmartFoldingCommand.unfold_yet_fold_subheads,
    SmartFoldingCommand.unfold_yet_fold_subheads_with,
    SmartFoldingCommand.view_unfold.
  rewrite bind_request. cbn zeta. rewrite bind_get_view. cbn [view].
  set (v' := unfold host (view w) R).
  assert (Tv : text v' = text (view w)) by apply (Ef (view w) R).
  destruct (Rt v' (view w) Tv) as (Pv & _ & _).
  pose proof (Cn (view w) from_point R) as Cn'.
  destruct (Pv (Region.a R)) as (_ & _ & _ & Ea).
  destruct (Pv (Region.b R)) as (_ & _ & _ & Eb).
  rewrite <- Ea, <- Eb in Cn'.
  destruct (rowcol host v' (Region.a R)) as [start_line c1].
  destruct (rowcol host v' (Region.b R)) as [end_line c2].
  cbn [fst] in Cn'.
  match goal with
  | |- context [for_each ?xs ?body ?w0] =>
      destruct (for_each_returns
                  (fun w' => text (view w') = text (view w)) xs body)
        with (w := w0) as [E _]
  end.
  - intros i w' Hi Hw'. apply TabFacts.range_bounds in Hi.
    rewrite bind_get_view, bind_result.
    destruct (IH (text_point host (view w') i 0) (lv + 1) w') as [b Eb'].
    + rewrite (toggle_depth_text (view w') (view w)) by assumption.
      destruct (Rt (view w') (view w) Hw') as (_ & _ & ->).
      unfold toggle_depth.
      destruct (region_of_content_of_headline_at_point hl (view w)
                  (text_point host (view w) i 0)) as [R'|] eqn:ER'; [|lia].
      specialize (Cn' i R' ER (ltac:(lia)) ER').
      pose proof (Z.abs_nonneg (Region.b R' - Region.a R')).
      unfold Region.size in *. lia.
    + rewrite Eb'. cbn zeta. cbn [ending world ret].
      split; [reflexivity|].
      rewrite toggle_keeps_text by assumption. exact Hw'.
  - exact Tv.
  - rewrite E. reflexivity.
Qed.

(** X18: the recursion of the toggle through [unfold_yet_fold_subheads]
    ends when the outline nests: with room for one call more than the content
    region has characters the toggle returns, and all it has asked for is
    [fold] and [unfold], which leave the text as it was. *)
Theorem toggle_returns fuel from_point level w :
  reads_text_only host hl ->
  editor_folds host ->
  content_nests host hl ->
  (toggle_depth hl (view w) from_point <= fuel)%nat ->
  let r := SmartFoldingCommand.fold_or_unfold_headline_at_point
             host hl fuel from_point level w in
  (exists b, ending r = Return b)
  /\ Forall (fun c => is_folding c = true) (calls r)
  /\ text (view (world r)) = text (view w).
Proof.
  intros Rt Ef Cn Hd r; subst r. split; [|split].
  - now apply toggle_ends.
  - apply (FoldingFacts.logs_fold_or_unfold host hl fuel from_point level w).
  - now apply toggle_keeps_text.
Qed.

(** The first loop of [run] returns, and leaves the selection as it was. *)
Lemma match_loop_returns fuel n :
  reads_text_only host hl ->
  editor_folds host ->
  content_nests host hl ->
  folding_keeps_headlines host hl ->
  forall i acc w,
    (forall x, In x (sel (view w)) ->
               (toggle_depth hl (view w) (Region.a x) <= fuel)%nat) ->
    (List.length (sel (view w)) - i < n)%nat ->
    let r := for_sel n i (SmartFoldingCommand.match_body host hl fuel) acc w in
    (exists b, ending r = Return b)
    /\ sel (view (world r)) = sel (view w).
Proof.
  intros Rt Ef Cn K. induction n as [|n IH]; intros i acc w Hd Hn r; subst r;
    [lia|].
  rewrite for_sel_step.
  destruct (nth_error (sel (view w)) i) as [x0|] eqn:Ei;
    [|split; [now exists acc | reflexivity]].
  assert (Hi : (i < List.length (sel (view w)))%nat).
  { apply nth_error_Some. congruence. }
  rewrite bind_result.
  destruct (ToggleFacts.match_body_result host hl fuel x0 acc w)
    as (-> & -> & ->).
  set (F := SmartFoldingCommand.fold_or_unfold_headline_at_point
              host hl fuel (Region.a x0) (ANY_LEVEL hl)).
  destruct (toggle_ends fuel (Region.a x0) (ANY_LEVEL hl) w Rt Ef Cn
              (Hd x0 (nth_error_In _ _ Ei))) as [m Em].
  fold F in Em. rewrite Em. cbn zeta.
  destruct (FoldingFacts.logs_fold_or_unfold host hl fuel (Region.a x0)
              (ANY_LEVEL hl) w) as [Fl Vw]. fold F in Fl, Vw.
  destruct (ToggleFacts.replay_folding_keeps host hl (view w) (calls (F w))
              K Fl) as [Hs _].
  rewrite <- Vw in Hs.
  pose proof (toggle_keeps_text fuel (Region.a x0) (ANY_LEVEL hl) w Ef) as Ht.
  fold F in Ht.
  destruct (IH (S i) (if m then true else acc) (world (F w))) as [[b Eb] Es].
  - rewrite Hs. intros x Hx.
    rewrite (toggle_depth_text _ (view w)) by assumption. now apply Hd.
  - rewrite Hs. lia.
  - cbn [ending world]. split; [now exists b | congruence].
Qed.

(** X19: [run] returns: with an outline that nests, an editor that keeps
    the selection when it folds and its length when it inserts, and room for
    the selection and for the deepest toggle, the command ends normally,
    whether it folds or inserts tabs. *)
Theorem run_returns fuel w :
  reads_text_only host hl ->
  editor_folds host ->
  content_nests host hl ->
  folding_keeps_headlines host hl ->
  (forall v pt s,
      List.length (sel (insert host v pt s)) = List.length (sel v)) ->
  (List.length (sel (view w)) < fuel)%nat ->
  (forall x, In x (sel (view w)) ->
             (toggle_depth hl (view w) (Region.a x) <= fuel)%nat) ->
  ending (SmartFoldingCommand.run host hl fuel w) = Return tt.
Proof.
  intros Rt Ef Cn K L Hn Hd. unfold SmartFoldingCommand.run.
  rewrite bind_result.
  destruct (match_loop_returns fuel fuel Rt Ef Cn K 0 false w Hd)
    as [[b Eb] Es]; [lia|].
  rewrite Eb. cbn zeta. destruct b; cbn [negb ending ret]; [reflexivity|].
  destruct (ToggleFacts.tab_loop host fuel L 0
              (world (for_sel fuel 0
                        (SmartFoldingCommand.match_body host hl fuel)
                        false w))) as (E & _); [rewrite Es; lia|].
  exact E.
Qed.

(** *** What the toggle leaves folded *)










End Facts.
End RecursionFacts.

(** * The reference editor meets the further assumptions *)

Module ReferenceLaws.

Lemma contains_refl r : Region.contains r r = true.
Proof.
  unfold Region.contains. now rewrite !Z.leb_refl.
Qed.

Lemma region_eqb_eq r x : Region.eqb r x = true -> r = x.
Proof.
  unfold Region.eqb. rewrite andb_true_iff, !Z.eqb_eq.
  destruct r, x; cbn. intros [-> ->]. reflexivity.
Qed.

Lemma reads_text file :
  reads_text_only (Reference.editor file) Reference.headline.
Proof.
  intros [t s f] [t' s' f'] E. cbn in E. subst t'.
  repeat split.
Qed.

Lemma folds file : editor_folds (Reference.editor file).
Proof.
  intros v r. cbn [fold unfold Reference.editor].
  unfold Reference.fold, Reference.unfold.
  destruct (Z.eqb_spec (Region.a r) (Region.b r)) as [Eab | Nab]; cbn [orb].
  - repeat split; auto.
    unfold SmartFoldingCommand.is_region_totally_folded.
    apply Z.eqb_eq in Eab. now rewrite Eab.
  - destruct (existsb (Region.eqb r) (folded_regions v)) eqn:Ee.
    + repeat split; auto.
      unfold SmartFoldingCommand.is_region_totally_folded.
      apply Z.eqb_neq in Nab. rewrite Nab.
      apply existsb_exists in Ee. destruct Ee as (f & Hf & Hfr).
      apply region_eqb_eq in Hfr. subst f.
      apply existsb_exists. exists r. split; [exact Hf | apply contains_refl].
    + repeat split; cbn [text folded_regions].
      * unfold SmartFoldingCommand.is_region_totally_folded.
        apply Z.eqb_neq in Nab. rewrite Nab. cbn [folded_regions].
        rewrite existsb_app. cbn. now rewrite contains_refl, orb_true_r.
      * intros [x|]; [|reflexivity].
        unfold SmartFoldingCommand.is_region_totally_folded.
        cbn [folded_regions]. destruct (_ =? _); [reflexivity|].
        rewrite existsb_app. intros ->. reflexivity.
Qed.

Lemma selection_apart file : selection_is_apart (Reference.editor file).
Proof. intros v. repeat split. Qed.


End ReferenceLaws.

(** * The reference outline nests *)

Module OutlineFacts.

Lemma lines_from_order s :
  forall pos start cur,
    start <= pos -> in_buffer_order (Reference.lines_from s pos start cur).
Proof.
  induction s as [|c s IH]; intros pos start cur Hle;
    cbn [Reference.lines_from].
  - repeat constructor.
  - destruct (Reference.is_newline c).
    + constructor; [apply IH; lia|].
      apply Forall_forall. intros l Hl.
      apply ReferenceFacts.lines_from_bound in Hl; [|lia]. cbn [fst]. lia.
    + apply IH. lia.
Qed.

Lemma lines_order v : in_buffer_order (Reference.lines v).
Proof. apply lines_from_order. lia. Qed.

Lemma line_in_buffer v l : In l (Reference.lines v) -> 0 <= fst l <= size v.
Proof.
  intros Hl. apply ReferenceFacts.lines_from_bound in Hl; [|lia].
  unfold size. lia.
Qed.

Lemma headline_on_line v h :
  In h (Reference.headlines v) ->
  exists l, In l (Reference.lines v) /\ fst l = fst h.
Proof.
  unfold Reference.headlines. rewrite in_flat_map. intros (l & Hl & Hh).
  exists l. split; [exact Hl|].
  destruct (Reference.level_of_line (snd l)); [|destruct Hh].
  now destruct Hh as [<- | []].
Qed.

Lemma headlines_order v : in_buffer_order (Reference.headlines v).
Proof.
  unfold Reference.headlines.
  pose proof (lines_order v) as S.
  induction S as [|l ls S IH F]; cbn [flat_map]; [constructor|].
  destruct (Reference.level_of_line (snd l)) as [lv|]; cbn [app];
    [|exact IH].
  constructor; [exact IH|].
  apply Forall_forall. intros h Hh. apply in_flat_map in Hh.
  destruct Hh as (l' & Hl' & Hh).
  rewrite Forall_forall in F. specialize (F l' Hl').
  destruct (Reference.level_of_line (snd l')); [|destruct Hh].
  destruct Hh as [<- | []]. exact F.
Qed.

(** In buffer order [find] gives the first from the left. *)
Lemma find_first {B} (xs : list (Z * B)) f x y :
  in_buffer_order xs -> find f xs = Some x -> In y xs -> f y = true ->
  fst x <= fst y.
Proof.
  intros S. induction S as [|a xs S IH F]; intros Ef Hy Hfy;
    [destruct Hy|].
  cbn [find] in Ef. destruct (f a) eqn:Efa.
  - injection Ef as <-. destruct Hy as [<- | Hy]; [lia|].
    rewrite Forall_forall in F. specialize (F y Hy). lia.
  - destruct Hy as [<- | Hy]; [congruence|]. now apply IH.
Qed.

Lemma nothing_before {B} (xs : list (Z * B)) pt :
  Forall (fun x => pt < fst x) xs ->
  filter (fun l => fst l <=? pt) xs = [].
Proof.
  induction 1 as [|x xs Hx _ IH]; [reflexivity|].
  cbn [filter]. destruct (Z.leb_spec (fst x) pt); [lia | exact IH].
Qed.

(** The lines up to a point are the first lines. *)
Lemma row_bound_above {B} (xs : list (Z * B)) pt :
  in_buffer_order xs ->
  forall n x,
    nth_error xs n = Some x ->
    (n < List.length (filter (fun l => (fst l <=? pt)%Z) xs))%nat ->
    fst x <= pt.
Proof.
  intros S. induction S as [|a xs S IH F]; intros n x En Hn;
    [now destruct n|].
  cbn [filter] in Hn. destruct (Z.leb_spec (fst a) pt) as [Ha|Ha].
  - destruct n as [|n]; cbn in En; [now injection En as <-|].
    cbn [List.length] in Hn. apply (IH n x En). lia.
  - rewrite nothing_before in Hn; [cbn in Hn; lia|].
    eapply Forall_impl; [|exact F]. cbn beta. intros; lia.
Qed.

Lemma row_bound_below {B} (xs : list (Z * B)) c :
  in_buffer_order xs ->
  forall n x,
    nth_error xs n = Some x -> In c xs ->
    (List.length (filter (fun l => (fst l <=? fst c)%Z) xs) <= S n)%nat ->
    fst c <= fst x.
Proof.
  intros S. induction S as [|a xs S IH F]; intros n x En Hc Hn;
    [destruct Hc|].
  rewrite Forall_forall in F.
  destruct n as [|n]; cbn in En.
  - injection En as <-. destruct Hc as [<- | Hc]; [lia|].
    pose proof (F c Hc) as Hac. cbn [filter] in Hn.
    destruct (Z.leb_spec (fst a) (fst c)); [|lia].
    cbn [List.length] in Hn.
    assert (Hin : In c (filter (fun l => fst l <=? fst c) xs)).
    { apply filter_In. split; [exact Hc | apply Z.leb_refl]. }
    destruct (filter (fun l => fst l <=? fst c) xs); [destruct Hin|].
    cbn [List.length] in Hn. lia.
  - destruct Hc as [<- | Hc].
    + apply nth_error_In in En. specialize (F x En). lia.
    + pose proof (F c Hc) as Hac. cbn [filter] in Hn.
      destruct (Z.leb_spec (fst a) (fst c)); [|lia].
      cbn [List.length] in Hn. apply (IH n x En Hc). lia.
Qed.

Lemma fold_left_after {B} (xs : list (Z * B)) pt acc :
  Forall (fun x => pt < fst x) xs ->
  fold_left (fun acc l => if fst l <=? pt then fst l else acc) xs acc = acc.
Proof.
  intros F. revert acc. induction F as [|x xs Hx _ IH]; intros acc;
    [reflexivity|].
  cbn [fold_left]. destruct (Z.leb_spec (fst x) pt); [lia | apply IH].
Qed.

(** A line starts where it starts. *)
Lemma line_start_of_line v l :
  In l (Reference.lines v) -> Reference.line_start v (fst l) = fst l.
Proof.
  unfold Reference.line_start. pose proof (lines_order v) as S.
  generalize 0 as acc.
  induction S as [|a xs S IH F]; intros acc Hl; [destruct Hl|].
  cbn [fold_left]. destruct Hl as [<- | Hl]; [|now apply IH].
  rewrite Z.leb_refl. now apply fold_left_after.
Qed.

(** What a content region is made of. *)
Lemma content_region v q R :
  Reference.region_of_content_of_headline_at_point v q = Some R ->
  exists lv lc,
    snd (Reference.headline_and_level_at_point v q) = Some lv
    /\ find (fun l => q <? fst l) (Reference.lines v) = Some lc
    /\ Region.a R = fst lc
    /\ Region.a R < Region.b R
    /\ match find (fun h => (fst lc <=? fst h)
                            && ((lv =? -1) || (snd h <=? lv)))
               (Reference.headlines v) with
       | Some h => Region.b R = fst h - 1
       | None => Region.b R = size v
       end.
Proof.
  unfold Reference.region_of_content_of_headline_at_point.
  destruct (Reference.headline_and_level_at_point v q) as [? [lv|]];
    [|discriminate].
  destruct (find (fun l => q <? fst l) (Reference.lines v)) as [lc|];
    [|discriminate].
  cbn zeta. unfold Reference.find_headline, Reference.ANY_LEVEL.
  intros E. exists lv, lc. repeat split.
  - destruct (find _ (Reference.headlines v)) as [h|]; cbn [Region.a] in E;
      match type of E with
      | (if ?c then _ else _) = _ => destruct c; [|discriminate]
      end; now injection E as <-.
  - destruct (find _ (Reference.headlines v)) as [h|]; cbn [Region.a] in E;
      match type of E with
      | (if ?a <? ?b then _ else _) = _ =>
          destruct (Z.ltb_spec a b); [|discriminate]
      end; injection E as <-; cbn in *; lia.
  - destruct (find _ (Reference.headlines v)) as [h|]; cbn [Region.a] in E;
      match type of E with
      | (if ?c then _ else _) = _ => destruct c; [|discriminate]
      end; now injection E as <-.
Qed.

Lemma headline_at v p lv :
  snd (Reference.headline_and_level_at_point v p) = Some lv ->
  exists h, In h (Reference.headlines v)
            /\ fst h = Reference.line_start v p /\ snd h = lv.
Proof.
  unfold Reference.headline_and_level_at_point.
  destruct (find _ (Reference.headlines v)) as [h|] eqn:Eh; [|discriminate].
  cbn [snd]. intros E. injection E as <-.
  apply find_some in Eh. destruct Eh as [Hin Hf]. apply Z.eqb_eq in Hf.
  now exists h.
Qed.

Lemma nests file : content_nests (Reference.editor file) Reference.headline.
Proof.
  intros v q R i R' EQ Hi EP.
  change (region_of_content_of_headline_at_point Reference.headline)
    with Reference.region_of_content_of_headline_at_point in EQ, EP.
  change (rowcol (Reference.editor file)) with Reference.rowcol in Hi.
  change (text_point (Reference.editor file)) with Reference.text_point in EP.
  unfold Reference.rowcol in Hi. cbn [fst] in Hi.
  apply content_region in EQ.
  destruct EQ as (lvq & lc & _ & Elc & Ea & Hab & Eb).
  apply find_some in Elc. destruct Elc as [Hlc _].
  pose proof (lines_order v) as SL. pose proof (headlines_order v) as SH.
  rewrite Ea in Hi.
  assert (Hpos :
           (0 < List.length (filter (fun l => (fst l <=? fst lc)%Z)
                               (Reference.lines v)))%nat).
  { assert (Hin : In lc (filter (fun l => fst l <=? fst lc)
                           (Reference.lines v))).
    { apply filter_In. split; [exact Hlc | apply Z.leb_refl]. }
    destruct (filter _ (Reference.lines v)); [destruct Hin | cbn; lia]. }
  unfold Reference.text_point in EP.
  destruct (nth_error (Reference.lines v) (Z.to_nat i)) as [lp|] eqn:Elp.
  2:{ apply content_region in EP.
      destruct EP as (_ & lc' & _ & Elc' & _).
      apply find_some in Elc'. destruct Elc' as [Hin Hlt].
      apply line_in_buffer in Hin. apply Z.ltb_lt in Hlt. lia. }
  rewrite Z.add_0_r in EP.
  assert (Hlo : fst lc <= fst lp).
  { apply (row_bound_below (Reference.lines v) lc SL (Z.to_nat i) lp Elp Hlc).
    lia. }
  assert (Hhi : fst lp <= Region.b R).
  { apply (row_bound_above (Reference.lines v) (Region.b R) SL
             (Z.to_nat i) lp Elp). lia. }
  apply content_region in EP.
  destruct EP as (lvp & lc' & Hlvp & Elc' & Ea' & Hab' & Eb').
  pose proof (find_some _ _ Elc') as [Hlc' Hlt']. apply Z.ltb_lt in Hlt'.
  apply headline_at in Hlvp. destruct Hlvp as (hp & Hhp & Fhp & Shp).
  rewrite (line_start_of_line v lp (nth_error_In _ _ Elp)) in Fhp.
  assert (Hb' : Region.b R' <= Region.b R).
  { destruct (find _ (Reference.headlines v)) as [hq|] eqn:Ehq in Eb.
    - pose proof (find_some _ _ Ehq) as [Hhq Pq].
      apply andb_prop in Pq. destruct Pq as [Pq1 Pq2].
      apply Z.leb_le in Pq1.
      destruct ((fst lc <=? fst hp) && ((lvq =? -1) || (snd hp <=? lvq)))
        eqn:Pp.
      { pose proof (find_first _ _ hq hp SH Ehq Hhp Pp). lia. }
      apply andb_false_iff in Pp. destruct Pp as [Pp | Pp];
        [apply Z.leb_gt in Pp; lia|].
      apply orb_false_iff in Pp. destruct Pp as [Pa Pl].
      rewrite Pa in Pq2. cbn [orb] in Pq2.
      apply Z.leb_le in Pq2. apply Z.leb_gt in Pl.
      destruct (headline_on_line v hq Hhq) as (lh & Hlh & Flh).
      assert (Hc' : fst lc' <= fst hq).
      { rewrite <- Flh.
        apply (find_first _ _ lc' lh SL Elc' Hlh). apply Z.ltb_lt. lia. }
      destruct (find _ (Reference.headlines v)) as [hp'|] eqn:Ehp' in Eb'.
      + assert (fst hp' <= fst hq); [|lia].
        apply (find_first _ _ hp' hq SH Ehp' Hhq).
        apply andb_true_intro. split; [now apply Z.leb_le|].
        apply orb_true_iff. right. apply Z.leb_le. lia.
      + apply (find_none _ _ Ehp') in Hhq.
        apply andb_false_iff in Hhq. destruct Hhq as [Hhq | Hhq];
          [apply Z.leb_gt in Hhq; lia|].
        apply orb_false_iff in Hhq. destruct Hhq as [_ Hhq].
        apply Z.leb_gt in Hhq. lia.
    - destruct (find _ (Reference.headlines v)) as [hp'|] eqn:Ehp' in Eb'.
      + apply find_some in Ehp'. destruct Ehp' as [Hin _].
        apply ReferenceFacts.headline_in_buffer in Hin. lia.
      + lia. }
  unfold Region.size. lia.
Qed.

End OutlineFacts.

Module CoverageExamples.
Import Examples Worlds.

Lemma run_exports_to_a_temporary_file_witness :
  calls (PandocRenderCommand.run editor (Reference.system "windows") "docx"
           true false [] (world_of plain [0] []))
  = [TempFile ".md" "/tmp/tmp0.md"; FileWrite "/tmp/tmp0.md" "abc";
     FileClose "/tmp/tmp0.md"; TempFile ".docx" "/tmp/tmp1.docx";
     FileClose "/tmp/tmp1.docx";
     SubprocessCall ["pandoc"; "-t"; "docx"; "/tmp/tmp0.md"; "-o";
                     "/tmp/tmp1.docx"];
     StartFile "/tmp/tmp1.docx"].
Proof.
  exact (proj1 (ExportFacts.run_exports_to_a_temporary_file
                  editor (Reference.system "windows") "docx" true []
                  (world_of plain [0] []) ["-t"; "docx"] eq_refl eq_refl)).
Defined.

Lemma run_saves_beside_the_buffer_witness :
  calls (PandocRenderCommand.run (Reference.editor (Some "/home/u/notes.md"))
           (Reference.system "linux") "html" false true []
           (world_of plain [0] []))
  = [TempFile ".md" "/tmp/tmp0.md"; FileWrite "/tmp/tmp0.md" "abc";
     FileClose "/tmp/tmp0.md";
     SubprocessCall ["pandoc"; "-t"; "html5"; "/tmp/tmp0.md"; "-o";
                     "/home/u/notes.html"]].
Proof.
  exact (proj1 (ExportFacts.run_saves_beside_the_buffer
                  (Reference.editor (Some "/home/u/notes.md"))
                  (Reference.system "linux")
                  "html" false [] (world_of plain [0] []) ["-t"; "html5"]
                  "/"%char "home/u/notes.md" eq_refl eq_refl eq_refl)).
Defined.

Lemma run_raises_only_witness :
  (is_ascii cafe = false
   /\ exists msg, encode_error cafe = Some msg
                  /\ cafe_error = UnicodeEncodeError msg)
  \/ (false = true /\ file_name editor = None
      /\ cafe_error
         = AttributeError "'NoneType' object has no attribute 'rfind'")
  \/ (false = true /\ file_name editor = Some ""
      /\ cafe_error = PandocRenderCommand.please_save)
  \/ (true = true /\ "pdf" = "html"
      /\ exists outfile msg,
          browser_error (Reference.system "linux") outfile = Some msg
          /\ cafe_error = WebbrowserError msg)
  \/ (true = true /\ "pdf" <> "html"
      /\ platform (Reference.system "linux") = "windows"
      /\ exists outfile msg,
          startfile_error (Reference.system "linux") outfile = Some msg
          /\ cafe_error = WindowsError msg)
  \/ (true = true /\ "pdf" <> "html"
      /\ exists opener outfile msg,
          ((platform (Reference.system "linux") = "osx" /\ opener = "open")
           \/ (platform (Reference.system "linux") = "linux"
               /\ opener = "xdg-open"))
          /\ call_error (Reference.system "linux") [opener; outfile] = Some msg
          /\ cafe_error = OSError msg).
Proof.
  refine (ExportFacts.run_raises_only editor (Reference.system "linux") "pdf"
            true false [] (world_of cafe [0] []) _ _ eq_refl).
  simpl. tauto.
Defined.

Lemma run_opens_nothing_on_an_unknown_platform_witness :
  PandocRenderCommand.run editor (Reference.system "freebsd") "pdf" true false
    [] (world_of plain [0] [])
  = PandocRenderCommand.run editor (Reference.system "freebsd") "pdf" false
      false [] (world_of plain [0] []).
Proof.
  refine (ExportFacts.run_opens_nothing_on_an_unknown_platform
            editor (Reference.system "freebsd") "pdf" false []
            (world_of plain [0] []) eq_refl _).
  discriminate.
Defined.

Lemma totally_folded_inside_witness :
  SmartFoldingCommand.is_region_totally_folded
    (Reference.buffer Reference.outline [0] [Reference.H1_content])
    (Some Reference.SS_content) = true.
Proof.
  exact (RegionFacts.totally_folded_inside
           (Reference.buffer Reference.outline [0] [Reference.H1_content])
           Reference.S1_content Reference.SS_content eq_refl eq_refl).
Defined.

Lemma unfold_leaf_headline_witness :
  SmartFoldingCommand.fold_or_unfold_headline_at_point
    editor Reference.headline 2 5 (-1) (flat_at_cursor 5 [Region.mk 11 12])
  = mkResult [ViewUnfold (Region.mk 11 12)]
      (Reference.start (Reference.buffer flat_outline [5] []))
      (Return true).
Proof.
  refine (TabFacts.unfold_leaf_headline editor Reference.headline 0 5 (-1)
            (Region.mk 11 12) (flat_at_cursor 5 [Region.mk 11 12])
            eq_refl eq_refl eq_refl _).
  intros i Hi. vm_compute in Hi.
  assert (E : i = 2).
  { destruct Hi as [H1 H2]. apply Z.le_antisymm; assumption. }
  subst i. reflexivity.
Defined.

Lemma toggle_twice_on_leaf_headline_witness :
  calls (SmartFoldingCommand.fold_or_unfold_headline_at_point
           editor Reference.headline 2 5 (-1) (flat_at_cursor 5 []))
  = [ViewFold (Region.mk 11 12)]
  /\ calls (SmartFoldingCommand.fold_or_unfold_headline_at_point
              editor Reference.headline 2 5 (-1)
              (world (SmartFoldingCommand.fold_or_unfold_headline_at_point
                        editor Reference.headline 2 5 (-1)
                        (flat_at_cursor 5 []))))
     = [ViewUnfold (Region.mk 11 12)].
Proof.
  refine ((fun H => conj (proj1 H) (proj1 (proj2 H)))
            (TabFacts.toggle_twice_on_leaf_headline editor Reference.headline
               0 5 (-1) (Region.mk 11 12) (flat_at_cursor 5 [])
               (ReferenceLaws.reads_text None) (ReferenceLaws.folds None)
               eq_refl eq_refl eq_refl _)).
  intros i Hi. vm_compute in Hi.
  assert (E : i = 2).
  { destruct Hi as [H1 H2]. apply Z.le_antisymm; assumption. }
  subst i. reflexivity.
Defined.

Lemma run_on_empty_headlines_witness :
  SmartFoldingCommand.run editor Reference.headline 3
    (world_of bare_outline [0; 4] [])
  = mkResult [] (world_of bare_outline [0; 4] []) (Return tt).
Proof.
  refine (TabFacts.run_on_empty_headlines editor Reference.headline 3
            (world_of bare_outline [0; 4] []) _ _).
  - intros x [<- | [<- | []]]; split; reflexivity.
  - simpl. lia.
Defined.

Lemma global_run_raises_only_witness :
  IndexError "" = IndexError ""
  /\ sel (unfold editor (view (world_of plain [] []))
            (Region.mk 0 (size (view (world_of plain [] []))))) = []
  /\ ending (GlobalFoldingCommand.is_global_folded Reference.headline 3
               (world_of plain [] [])) = Return true.
Proof.
  exact (GlobalFacts.global_run_raises_only editor Reference.headline 3
           (world_of plain [] []) (IndexError "") eq_refl).
Defined.

Lemma run_without_headlines_witness :
  GlobalFoldingCommand.run editor Reference.headline 0
    (world_of plain [1] [Region.mk 0 2])
  = mkResult [ViewUnfold (Region.mk 0 3); ViewShow (Region.mk 1 1)]
      (world_of plain [1] []) (Return tt).
Proof.
  exact (GlobalFacts.run_without_headlines editor Reference.headline 0
           (world_of plain [1] [Region.mk 0 2]) None eq_refl).
Defined.

Lemma adjust_cursors_and_view_result_witness :
  calls (GlobalFoldingCommand.adjust_cursors_and_view editor 3
           (world_of Reference.outline [2; 19] [Reference.S1_content]))
  = [SelClear; SelAdd (Region.mk 2 2); ViewShow (Region.mk 2 2);
     SelAdd (Region.mk 22 22); ViewShow (Region.mk 22 22)].
Proof.
  refine (proj1 (GlobalFacts.adjust_cursors_and_view_result editor 3
                   (world_of Reference.outline [2; 19] [Reference.S1_content])
                   _)).
  simpl. lia.
Defined.

Lemma fold_all_then_is_global_folded_witness :
  ending (GlobalFoldingCommand.is_global_folded Reference.headline 10
            (world (GlobalFoldingCommand.fold_all editor Reference.headline 10
                      (at_cursor 0 []))))
  = Return true.
Proof.
  exact (proj1 (GlobalFacts.fold_all_then_is_global_folded
                  editor Reference.headline 10 (at_cursor 0 [])
                  (ReferenceLaws.reads_text None) (ReferenceLaws.folds None)
                  (ReferenceLaws.selection_apart None) eq_refl)).
Defined.

Lemma global_run_folds_when_unfolded_witness :
  ending (GlobalFoldingCommand.is_global_folded Reference.headline 10
            (at_cursor 0 [])) = Return false.
Proof.
  refine (proj1 (GlobalFacts.global_run_folds_when_unfolded
                   editor Reference.headline 9 (at_cursor 0 [])
                   (Region.mk 0 2) (Some 1) Reference.H1_content
                   eq_refl eq_refl eq_refl _)).
  discriminate.
Defined.

Lemma toggle_returns_witness :
  exists b,
    ending (SmartFoldingCommand.fold_or_unfold_headline_at_point
              editor Reference.headline 19 0 (-1)
              (at_cursor 0 [Reference.S1_content; Reference.H1_content]))
    = Return b.
Proof.
  refine (proj1 (RecursionFacts.toggle_returns
                   editor Reference.headline 19 0 (-1)
                   (at_cursor 0 [Reference.S1_content; Reference.H1_content])
                   (ReferenceLaws.reads_text None) (ReferenceLaws.folds None)
                   (OutlineFacts.nests None) _)).
  apply Nat.leb_le. vm_compute. reflexivity.
Defined.

Lemma run_returns_witness :
  ending (SmartFoldingCommand.run
            editor Reference.headline 19
            (at_cursor 0 [Reference.S1_content; Reference.H1_content]))
  = Return tt.
Proof.
  refine (RecursionFacts.run_returns
            editor Reference.headline 19
            (at_cursor 0 [Reference.S1_content; Reference.H1_content])
            (ReferenceLaws.reads_text None) (ReferenceLaws.folds None)
            (OutlineFacts.nests None) (ReferenceFacts.folding_keeps None)
            (ReferenceFacts.insert_keeps_selections None) _ _).
  - apply Nat.ltb_lt. vm_compute. reflexivity.
  - intros x [<- | []]. apply Nat.leb_le. vm_compute. reflexivity.
Defined.


Lemma run_exports_ascii_buffers_only_witness :
  ending (PandocRenderCommand.run editor (Reference.system "linux") "pdf"
            false false [] (world_of cafe [0] []))
  = Raise cafe_error
  /\ calls (PandocRenderCommand.run editor (Reference.system "linux") "pdf"
              false false [] (world_of cafe [0] []))
     = [TempFile ".md" "/tmp/tmp0.md"].
Proof.
  destruct (proj1 (proj2 (PandocFacts.run_exports_ascii_buffers_only
              editor (Reference.system "linux") "pdf" false false []
              (world_of cafe [0] [])
              (or_intror (or_intror (or_introl eq_refl)))))
              eq_refl) as [_ C].
  split; [reflexivity | exact C].
Defined.

End CoverageExamples.
